(** * Pollinations MCP server: the tool-call handler of [src/index.ts]

    The server registers two request handlers: one returns the static tool
    catalog, the other dispatches a tool call by name, talks to the
    Pollinations HTTP endpoints through [fetch] and wraps whatever happens
    into a result envelope.

    Layout of this development:
    - the JavaScript built-ins the handler calls ([encodeURIComponent],
      [URLSearchParams], [JSON.stringify], [Number.prototype.toString]);
    - [fetch] and the asynchronous computations of the handler, as a
      computation that reads the remote, logs every outbound call and may
      throw;
    - the handler itself, case by case as the source has it;
    - the properties of the handler.

    JavaScript strings are held as the bytes of their UTF-8 encoding (Rocq's
    [string]), JavaScript numbers as binary64 floats ([PrimFloat.float]). A
    surrogate that is not part of a pair, which a JavaScript string can hold
    and UTF-8 proper cannot, is held as the three bytes [ED A0..BF 80..BF]
    (the WTF-8 convention); a pair is the four bytes of its code point. *)

Set Warnings "-inexact-float,-register-all".
From Stdlib Require Import String Ascii List ZArith NArith Bool Lia DecimalString.
From Stdlib Require Import PrimFloat FloatOps SpecFloat.
Import ListNotations.
Open Scope string_scope.

(* ================================================================= *)
(** ** Characters *)

Definition LF : string := String (ascii_of_N 10) "".
Definition DQUOTE : string := String (ascii_of_N 34) "".

Definition isDigit (c : ascii) : bool :=
  let n := N_of_ascii c in ((48 <=? n) && (n <=? 57))%N.

Definition isAlpha (c : ascii) : bool :=
  let n := N_of_ascii c in
  (((65 <=? n) && (n <=? 90)) || ((97 <=? n) && (n <=? 122)))%N.

Definition isAlnum (c : ascii) : bool := isAlpha c || isDigit c.

Definition oneOf (set : string) (c : ascii) : bool :=
  existsb (Ascii.eqb c) (list_ascii_of_string set).

Definition hexDigit (upper : bool) (n : N) : ascii :=
  if (n <? 10)%N then ascii_of_N (48 + n)
  else ascii_of_N ((if upper then 55 else 87) + n).

(** [%XX] with upper-case hexadecimal digits, for one byte. *)
Definition percentEncode (c : ascii) : string :=
  let n := N_of_ascii c in
  String "%" (String (hexDigit true (n / 16)) (String (hexDigit true (n mod 16)) "")).

Fixpoint concatMap (f : ascii -> string) (s : string) : string :=
  match s with
  | EmptyString => ""
  | String c s' => f c ++ concatMap f s'
  end.

Fixpoint join (sep : string) (parts : list string) : string :=
  match parts with
  | [] => ""
  | [p] => p
  | p :: rest => p ++ sep ++ join sep rest
  end.

Fixpoint repeatString (s : string) (n : nat) : string :=
  match n with
  | O => ""
  | S n' => s ++ repeatString s n'
  end.

(* ================================================================= *)
(** ** Lone surrogates *)

(** The three bytes of a surrogate code unit, [D800] to [DFFF]. *)
Definition isLoneSurrogate (c d e : ascii) : bool :=
  ((N_of_ascii c =? 237) && (160 <=? N_of_ascii d) && (N_of_ascii d <=? 191)
   && (128 <=? N_of_ascii e) && (N_of_ascii e <=? 191))%N.

Fixpoint hasLoneSurrogate (s : string) : bool :=
  match s with
  | EmptyString => false
  | String c rest =>
      match rest with
      | String d (String e _) => isLoneSurrogate c d e || hasLoneSurrogate rest
      | _ => false
      end
  end.

(** U+FFFD, the replacement character. *)
Definition REPLACEMENT : string :=
  String (ascii_of_N 239) (String (ascii_of_N 191) (String (ascii_of_N 189) "")).

(** The conversion to a USVString: every lone surrogate becomes U+FFFD. *)
Fixpoint toUSVString (s : string) : string :=
  match s with
  | EmptyString => ""
  | String c rest =>
      match rest with
      | String d (String e rest') =>
          if isLoneSurrogate c d e then REPLACEMENT ++ toUSVString rest'
          else String c (toUSVString rest)
      | _ => String c (toUSVString rest)
      end
  end.

(* ================================================================= *)
(** ** Percent escaping

    Every byte of the UTF-8 encoding is escaped except the unreserved
    characters [A-Z a-z 0-9 - _ . ! ~ * ' ( )]. [encodeURIComponent], further
    down, is this escaping for a string without lone surrogate. *)

Definition uriUnescaped (c : ascii) : bool := isAlnum c || oneOf "-_.!~*'()" c.

Definition percentEscape (s : string) : string :=
  concatMap (fun c => if uriUnescaped c then String c "" else percentEncode c) s.

(* ================================================================= *)
(** ** [Boolean.prototype.toString] *)

Definition Boolean_toString (b : bool) : string := if b then "true" else "false".

(* ================================================================= *)
(** ** [URLSearchParams]

    An ordered list of name/value pairs; [toString] is the
    application/x-www-form-urlencoded serializer. *)

Module URLSearchParams.

Definition t := list (string * string).

(** [new URLSearchParams({k1: v1, ...})]: the record's entries in order,
    names and values converted to USVStrings. *)
Definition new (init : list (string * string)) : t :=
  map (fun nv => (toUSVString (fst nv), toUSVString (snd nv))) init.

Definition append (params : t) (name value : string) : t :=
  (params ++ [(toUSVString name, toUSVString value)])%list.

Definition serializeByte (c : ascii) : string :=
  if Ascii.eqb c " " then "+"
  else if isAlnum c || oneOf "*-._" c then String c ""
  else percentEncode c.

Definition serialize (s : string) : string := concatMap serializeByte s.

Definition toString (params : t) : string :=
  join "&" (map (fun nv => serialize (fst nv) ++ "=" ++ serialize (snd nv)) params).

End URLSearchParams.

(* ================================================================= *)
(** ** [Number.prototype.toString] (radix 10)

    The shortest decimal numeral that reads back as the same binary64 value,
    laid out as ECMAScript's Number::toString prescribes. A finite non-zero
    value is [m * 2^e]; [rounding_interval] is the set of reals that round to
    it, all bounds scaled by 4 so that they are integers times [2^(e-2)]. *)

Module Number.

Open Scope Z_scope.

Definition digits (n : Z) : string := NilZero.string_of_int (Z.to_int n).

Record interval := { I_X : Z; I_L : Z; I_H : Z; I_E : Z; I_closed : bool }.

Definition rounding_interval (m : positive) (e : Z) : interval :=
  let m := Z.pos m in
  {| I_X := 4 * m;
     I_L := if (m =? 2 ^ 52) && (-1074 <? e) then 4 * m - 1 else 4 * m - 2;
     I_H := 4 * m + 2;
     I_E := e - 2;
     I_closed := Z.even m |}.

(** Compares [c * 10^p] with [v * 2^E]. *)
Definition cmp_scaled (c p v E : Z) : comparison :=
  (c * 10 ^ Z.max p 0 * 2 ^ Z.max (- E) 0) ?= (v * 2 ^ Z.max E 0 * 10 ^ Z.max (- p) 0).

(** The least [n >= n0] with [x < 10^n]. *)
Fixpoint magnitude (fuel : nat) (n : Z) (i : interval) : Z :=
  match fuel with
  | O => n
  | S fuel' =>
      match cmp_scaled 1 n (I_X i) (I_E i) with
      | Gt => n
      | _ => magnitude fuel' (n + 1) i
      end
  end.

(** A lower estimate of the decimal magnitude from the binary one. *)
Definition magnitude_estimate (i : interval) : Z :=
  let b := Z.log2 (I_X i) + I_E i in
  Z.min (b * 30102 / 100000) (b * 30103 / 100000) - 1.

Definition inside (i : interval) (c p : Z) : bool :=
  match cmp_scaled c p (I_L i) (I_E i), cmp_scaled c p (I_H i) (I_E i) with
  | Gt, Lt => true
  | Eq, Lt | Gt, Eq => I_closed i
  | _, _ => false
  end.

Definition floor_scaled (i : interval) (p : Z) : Z :=
  (I_X i * 2 ^ Z.max (I_E i) 0 * 10 ^ Z.max (- p) 0)
  / (10 ^ Z.max p 0 * 2 ^ Z.max (- I_E i) 0).

Definition distance (i : interval) (c p : Z) : Z :=
  Z.abs (c * 10 ^ Z.max p 0 * 2 ^ Z.max (- I_E i) 0
         - I_X i * 2 ^ Z.max (I_E i) 0 * 10 ^ Z.max (- p) 0).

(** The multiple of [10^p] inside the interval that is closest to the value. *)
Definition candidate (i : interval) (p : Z) : option Z :=
  let lo := floor_scaled i p in
  let hi := lo + 1 in
  match inside i lo p, inside i hi p with
  | true, true =>
      match distance i lo p ?= distance i hi p with
      | Lt => Some lo
      | Gt => Some hi
      | Eq => Some (if Z.even lo then lo else hi)
      end
  | true, false => Some lo
  | false, true => Some hi
  | false, false => None
  end.

(** Tries 1, 2, ... significant digits; 17 always suffice for binary64. *)
Fixpoint shortest (fuel : nat) (k : Z) (n0 : Z) (i : interval) : Z * Z :=
  match fuel with
  | O => (0, 0)
  | S fuel' =>
      match candidate i (n0 - k) with
      | Some c => (c, n0 - k)
      | None => shortest fuel' (k + 1) n0 i
      end
  end.

Fixpoint strip (fuel : nat) (c p : Z) : Z * Z :=
  match fuel with
  | O => (c, p)
  | S fuel' =>
      if (c mod 10 =? 0) && (0 <? c) then strip fuel' (c / 10) (p + 1) else (c, p)
  end.

(** Digits [s] (k of them) with the decimal point after the n-th. *)
Definition layout (s : Z) (n : Z) : string :=
  let ds := digits s in
  let k := Z.of_nat (String.length ds) in
  if (k <=? n) && (n <=? 21) then ds ++ repeatString "0" (Z.to_nat (n - k))
  else if (0 <? n) && (n <=? 21) then
    substring 0 (Z.to_nat n) ds ++ "." ++ substring (Z.to_nat n) (Z.to_nat (k - n)) ds
  else if (-6 <? n) && (n <=? 0) then "0." ++ repeatString "0" (Z.to_nat (- n)) ++ ds
  else
    let e := n - 1 in
    let sign := if e <? 0 then "-" else "+" in
    let mant := if k =? 1 then ds
                else substring 0 1 ds ++ "." ++ substring 1 (Z.to_nat (k - 1)) ds in
    mant ++ "e" ++ sign ++ digits (Z.abs e).

Definition toString (x : float) : string :=
  match Prim2SF x with
  | S754_nan => "NaN"
  | S754_zero _ => "0"
  | S754_infinity s => if s then "-Infinity" else "Infinity"
  | S754_finite s m e =>
      let i := rounding_interval m e in
      let n0 := magnitude 8 (magnitude_estimate i) i in
      let '(c, p) := shortest 17 1 n0 i in
      let '(c, p) := strip 20 c p in
      let body := layout c (p + Z.of_nat (String.length (digits c))) in
      if s then "-" ++ body else body
  end.

End Number.

(* ================================================================= *)
(** ** JSON values and [JSON.stringify] *)

Inductive json : Type :=
| JUndefined
| JNull
| JBool (b : bool)
| JNumber (n : float)
| JString (s : string)
| JArray (items : list json)
| JObject (props : list (string * json)).

Module JSON.

Definition quoteChar (c : ascii) : string :=
  let n := N_of_ascii c in
  if (n =? 8)%N then "\b"
  else if (n =? 9)%N then "\t"
  else if (n =? 10)%N then "\n"
  else if (n =? 12)%N then "\f"
  else if (n =? 13)%N then "\r"
  else if (n =? 34)%N then "\" ++ DQUOTE
  else if (n =? 92)%N then "\\"
  else if (n <? 32)%N then
    "\u00" ++ String (hexDigit false (n / 16)) (String (hexDigit false (n mod 16)) "")
  else String c "".

(** UnicodeEscape of the surrogate code unit held as [ED d e]: a backslash,
    [u] and four lower-case hexadecimal digits. *)
Definition surrogateEscape (d e : ascii) : string :=
  let unit := (55296 + (N_of_ascii d - 160) * 64 + (N_of_ascii e - 128))%N in
  "\u" ++ String (hexDigit false (unit / 4096))
            (String (hexDigit false ((unit / 256) mod 16))
               (String (hexDigit false ((unit / 16) mod 16))
                  (String (hexDigit false (unit mod 16)) ""))).

(** The characters of a string between the quotes: a lone surrogate is
    written as its escape, every other character by [quoteChar]. *)
Fixpoint quoteChars (s : string) : string :=
  match s with
  | EmptyString => ""
  | String c rest =>
      match rest with
      | String d (String e rest') =>
          if isLoneSurrogate c d e then surrogateEscape d e ++ quoteChars rest'
          else quoteChar c ++ quoteChars rest
      | _ => quoteChar c ++ quoteChars rest
      end
  end.

(** QuoteJSONString *)
Definition quote (s : string) : string := DQUOTE ++ quoteChars s ++ DQUOTE.

(** The brackets around the serialized members, with the line breaks and
    indentation that a non-empty [gap] asks for. *)
Definition wrap (open close gap stepback indent : string) (partial : list string) : string :=
  match partial with
  | [] => open ++ close
  | _ =>
      if String.eqb gap "" then open ++ join "," partial ++ close
      else open ++ LF ++ indent ++ join ("," ++ LF ++ indent) partial
                ++ LF ++ stepback ++ close
  end.

(** SerializeJSONProperty: [None] stands for [undefined], which makes an
    object drop the property and an array print [null]. *)
Fixpoint serialize (gap indent : string) (v : json) {struct v} : option string :=
  match v with
  | JUndefined => None
  | JNull => Some "null"
  | JBool b => Some (Boolean_toString b)
  | JNumber n => Some (if is_finite n then Number.toString n else "null")
  | JString s => Some (quote s)
  | JArray items =>
      let stepback := indent in
      let indent := indent ++ gap in
      let partial :=
        map (fun x => match serialize gap indent x with
                      | Some s => s
                      | None => "null"
                      end) items in
      Some (wrap "[" "]" gap stepback indent partial)
  | JObject props =>
      let stepback := indent in
      let indent := indent ++ gap in
      let partial :=
        (fix members (ps : list (string * json)) : list string :=
           match ps with
           | [] => []
           | (k, x) :: ps' =>
               match serialize gap indent x with
               | Some s =>
                   (quote k ++ ":" ++ (if String.eqb gap "" then "" else " ") ++ s)
                     :: members ps'
               | None => members ps'
               end
           end) props in
      Some (wrap "{" "}" gap stepback indent partial)
  end.

(** [JSON.stringify(value, null, space)] at an object; [space] is clamped
    to 10 and 0 means the compact form. *)
Definition stringify (value : list (string * json)) (space : nat) : string :=
  match serialize (repeatString " " (Nat.min 10 space)) "" (JObject value) with
  | Some s => s
  | None => ""
  end.

End JSON.

(* ================================================================= *)
(** ** Thrown values

    The handler's [catch] only asks whether the caught value is an instance
    of [Error], and reads nothing but [message] from one that is. *)

Inductive thrown : Type :=
| JsError (message : string)
| NotAnError.

(* ================================================================= *)
(** ** [encodeURIComponent]

    It throws a URIError when the string holds a lone surrogate, and escapes
    the bytes of the UTF-8 encoding otherwise. *)

Definition encodeURIComponent (s : string) : thrown + string :=
  if hasLoneSurrogate s then inl (JsError "URI malformed")
  else inr (percentEscape s).

(* ================================================================= *)
(** ** [fetch] (node-fetch) *)

Record RequestInit : Type := {
  method : string;
  headers : list (string * string);
  body : option string
}.

(** A response, with what reading its body as text gives. *)
Record Response : Type := {
  status : Z;
  statusText : string;
  text : thrown + string
}.

(** [response.ok]: the status is in the range 200-299. *)
Definition ok (r : Response) : bool := ((200 <=? status r) && (status r <? 300))%Z.

(** What the outside world does with a call: it rejects, or it answers. *)
Definition Remote : Type := string -> RequestInit -> thrown + Response.

(** One outbound call: the URL and the options [fetch] was given. *)
Definition Call : Type := (string * RequestInit)%type.

(* ================================================================= *)
(** ** Asynchronous computations

    An [async] body reads the remote, appends the calls it makes to the log
    and either throws or returns. *)

Definition Async (A : Type) : Type :=
  Remote -> list Call -> list Call * (thrown + A).

Definition ret {A} (a : A) : Async A := fun _ log => (log, inr a).

Definition throw {A} (e : thrown) : Async A := fun _ log => (log, inl e).

(** A call of a built-in that returns or throws, and touches nothing else. *)
Definition evaluate {A} (r : thrown + A) : Async A := fun _ log => (log, r).

Definition bind {A B} (m : Async A) (k : A -> Async B) : Async B :=
  fun remote log =>
    match m remote log with
    | (log', inr a) => k a remote log'
    | (log', inl e) => (log', inl e)
    end.

Definition tryCatch {A} (m : Async A) (handler : thrown -> Async A) : Async A :=
  fun remote log =>
    match m remote log with
    | (log', inl e) => handler e remote log'
    | done => done
    end.

Definition fetch (url : string) (init : RequestInit) : Async Response :=
  fun remote log => ((log ++ [(url, init)])%list, remote url init).

(** [await response.text()] *)
Definition Response_text (r : Response) : Async string :=
  fun _ log => (log, text r).

Notation "x <- m ;; k" := (bind m (fun x => k))
  (at level 61, m at next level, right associativity).

(* ================================================================= *)
(** ** The server *)

Definition POLLINATIONS_IMAGE_API : string := "https://image.pollinations.ai/prompt".
Definition POLLINATIONS_TEXT_API : string := "https://text.pollinations.ai".

Module GenerateImageArgs.
Record t : Type := {
  prompt : option string;
  width : option float;
  height : option float;
  seed : option float;
  model : option string;
  nologo : option bool;
  enhance : option bool
}.
End GenerateImageArgs.

Module GenerateTextArgs.
Record t : Type := {
  prompt : option string;
  model : option string;
  seed : option float;
  temperature : option float;
  max_tokens : option float;
  system : option string
}.
End GenerateTextArgs.

(** *** The tool catalog *)

Module Schema.

Record Property : Type := {
  type : string;
  description : string;
  enum : option (list string);
  default : option json;
  minimum : option float;
  maximum : option float
}.

Record Tool : Type := {
  name : string;
  summary : string;
  properties : list (string * Property);
  required : option (list string)
}.

Definition plain (ty desc : string) : Property :=
  {| type := ty; description := desc; enum := None; default := None;
     minimum := None; maximum := None |}.

Definition withDefault (ty desc : string) (d : json) : Property :=
  {| type := ty; description := desc; enum := None; default := Some d;
     minimum := None; maximum := None |}.

End Schema.

Definition image_model_enum : list string :=
  ["flux"; "flux-realism"; "flux-anime"; "flux-3d"; "turbo"].

Definition text_model_enum : list string :=
  ["openai"; "mistral"; "mistral-large"; "claude-3.5-sonnet"; "llama-3.3-70b";
   "qwen-2.5-coder-32b"; "searchgpt"].

Definition tools : list Schema.Tool :=
  [ {| Schema.name := "generate_image";
       Schema.summary :=
         "Generate an image using Pollinations AI. Creates stunning AI-generated images from text prompts. Returns a URL to the generated image.";
       Schema.properties :=
         [ ("prompt", Schema.plain "string" "The text prompt describing the image to generate");
           ("width", Schema.withDefault "number" "Image width in pixels (default: 1024)"
                       (JNumber 1024));
           ("height", Schema.withDefault "number" "Image height in pixels (default: 1024)"
                        (JNumber 1024));
           ("seed", Schema.plain "number" "Random seed for reproducible results (optional)");
           ("model",
             {| Schema.type := "string";
                Schema.description :=
                  "Model to use: flux, flux-realism, flux-anime, flux-3d, turbo (default: flux)";
                Schema.enum := Some image_model_enum;
                Schema.default := Some (JString "flux");
                Schema.minimum := None; Schema.maximum := None |});
           ("nologo", Schema.withDefault "boolean"
                        "Remove Pollinations watermark (default: true)" (JBool true));
           ("enhance", Schema.withDefault "boolean"
                         "Enhance the prompt automatically (default: false)" (JBool false)) ];
       Schema.required := Some ["prompt"] |};
    {| Schema.name := "generate_text";
       Schema.summary :=
         "Generate text using Pollinations AI language models. Supports various models including OpenAI, Mistral, and more. Returns generated text response.";
       Schema.properties :=
         [ ("prompt", Schema.plain "string" "The text prompt or question");
           ("model",
             {| Schema.type := "string";
                Schema.description := "Model to use (default: openai)";
                Schema.enum := Some text_model_enum;
                Schema.default := Some (JString "openai");
                Schema.minimum := None; Schema.maximum := None |});
           ("seed", Schema.plain "number" "Random seed for reproducible results (optional)");
           ("temperature",
             {| Schema.type := "number";
                Schema.description := "Temperature for randomness (0.0 to 2.0, default: 0.7)";
                Schema.enum := None;
                Schema.default := Some (JNumber 0.7);
                Schema.minimum := Some 0%float; Schema.maximum := Some 2%float |});
           ("max_tokens", Schema.plain "number"
                            "Maximum number of tokens to generate (optional)");
           ("system", Schema.plain "string" "System message to set context (optional)") ];
       Schema.required := Some ["prompt"] |};
    {| Schema.name := "get_available_models";
       Schema.summary :=
         "Get a list of all available models for image and text generation on Pollinations AI";
       Schema.properties := [];
       Schema.required := None |} ].

(** The list_tools handler. *)
Definition listTools : list Schema.Tool := tools.

(** The property [prop] of the tool [tool] in the catalog. *)
Definition declared (tool prop : string) : option Schema.Property :=
  match find (fun t => String.eqb (Schema.name t) tool) tools with
  | Some t =>
      option_map snd (find (fun p => String.eqb (fst p) prop) (Schema.properties t))
  | None => None
  end.

Definition declaredDefault (tool prop : string) : option json :=
  match declared tool prop with
  | Some p => Schema.default p
  | None => None
  end.

(** *** Requests and results *)

(** [request.params.arguments]: the object a client sends. The handler casts
    it to the interface of the tool it dispatches to, so it is held here with
    the fields of both interfaces, each one possibly absent and otherwise of
    the type its interface declares. A value of another type is outside this
    record: a JSON null for [width], say, on which the handler's
    [width.toString()] throws a TypeError. What follows is said of arguments
    of the declared types. *)
Record Arguments : Type := {
  arg_prompt : option string;
  arg_width : option float;
  arg_height : option float;
  arg_seed : option float;
  arg_model : option string;
  arg_nologo : option bool;
  arg_enhance : option bool;
  arg_temperature : option float;
  arg_max_tokens : option float;
  arg_system : option string
}.

(** The object literal [{}]. *)
Definition noArguments : Arguments :=
  {| arg_prompt := None; arg_width := None; arg_height := None; arg_seed := None;
     arg_model := None; arg_nologo := None; arg_enhance := None;
     arg_temperature := None; arg_max_tokens := None; arg_system := None |}.

(** [request.params] *)
Record CallToolRequest : Type := {
  name : string;
  arguments : option Arguments
}.

Inductive ContentPart : Type :=
| TextContent (text : string)
| ImageContent (data : string) (mimeType : string).

(** [isError] is absent ([None]) from the results of a successful call. *)
Record CallToolResult : Type := {
  content : list ContentPart;
  isError : option bool
}.

(** [args || {}] *)
Definition orEmpty (args : option Arguments) : Arguments :=
  match args with
  | Some a => a
  | None => noArguments
  end.

(** [... as unknown as GenerateImageArgs] *)
Definition asGenerateImageArgs (a : Arguments) : GenerateImageArgs.t :=
  {| GenerateImageArgs.prompt := arg_prompt a;
     GenerateImageArgs.width := arg_width a;
     GenerateImageArgs.height := arg_height a;
     GenerateImageArgs.seed := arg_seed a;
     GenerateImageArgs.model := arg_model a;
     GenerateImageArgs.nologo := arg_nologo a;
     GenerateImageArgs.enhance := arg_enhance a |}.

(** [... as unknown as GenerateTextArgs] *)
Definition asGenerateTextArgs (a : Arguments) : GenerateTextArgs.t :=
  {| GenerateTextArgs.prompt := arg_prompt a;
     GenerateTextArgs.model := arg_model a;
     GenerateTextArgs.seed := arg_seed a;
     GenerateTextArgs.temperature := arg_temperature a;
     GenerateTextArgs.max_tokens := arg_max_tokens a;
     GenerateTextArgs.system := arg_system a |}.

(** *** Destructuring with defaults

    [const { x = d } = o] binds [d] when [o.x] is undefined. *)

Definition orDefault {A} (d : A) (field : option A) : A :=
  match field with
  | Some v => v
  | None => d
  end.

Module ImageLocals.
Record t : Type := {
  prompt : option string;
  width : float;
  height : float;
  seed : option float;
  model : string;
  nologo : bool;
  enhance : bool
}.
End ImageLocals.

Module TextLocals.
Record t : Type := {
  prompt : option string;
  model : string;
  seed : option float;
  temperature : float;
  max_tokens : option float;
  system : option string
}.
End TextLocals.

Definition destructureImageArgs (imageArgs : GenerateImageArgs.t) : ImageLocals.t :=
  {| ImageLocals.prompt := GenerateImageArgs.prompt imageArgs;
     ImageLocals.width := orDefault 1024%float (GenerateImageArgs.width imageArgs);
     ImageLocals.height := orDefault 1024%float (GenerateImageArgs.height imageArgs);
     ImageLocals.seed := GenerateImageArgs.seed imageArgs;
     ImageLocals.model := orDefault "flux" (GenerateImageArgs.model imageArgs);
     ImageLocals.nologo := orDefault true (GenerateImageArgs.nologo imageArgs);
     ImageLocals.enhance := orDefault false (GenerateImageArgs.enhance imageArgs) |}.

Definition destructureTextArgs (textArgs : GenerateTextArgs.t) : TextLocals.t :=
  {| TextLocals.prompt := GenerateTextArgs.prompt textArgs;
     TextLocals.model := orDefault "openai" (GenerateTextArgs.model textArgs);
     TextLocals.seed := GenerateTextArgs.seed textArgs;
     TextLocals.temperature := orDefault 0.7%float (GenerateTextArgs.temperature textArgs);
     TextLocals.max_tokens := GenerateTextArgs.max_tokens textArgs;
     TextLocals.system := GenerateTextArgs.system textArgs |}.

(** *** Object literals *)

(** A property whose value may be undefined. *)
Definition maybe {A} (inj : A -> json) (field : option A) : json :=
  match field with
  | Some v => inj v
  | None => JUndefined
  end.

(** [obj.key = value] *)
Fixpoint setProperty (obj : list (string * json)) (key : string) (value : json)
  : list (string * json) :=
  match obj with
  | [] => [(key, value)]
  | (k, v) :: rest =>
      if String.eqb k key then (k, value) :: rest
      else (k, v) :: setProperty rest key value
  end.

(** *** The three tools *)

Definition case_generate_image (args : option Arguments) : Async CallToolResult :=
  let imageArgs := asGenerateImageArgs (orEmpty args) in
  let locals := destructureImageArgs imageArgs in
  let width := ImageLocals.width locals in
  let height := ImageLocals.height locals in
  let seed := ImageLocals.seed locals in
  let model := ImageLocals.model locals in
  let nologo := ImageLocals.nologo locals in
  let enhance := ImageLocals.enhance locals in
  match ImageLocals.prompt locals with
  | None | Some EmptyString => throw (JsError "Prompt is required")
  | Some prompt =>
      encodedPrompt <- evaluate (encodeURIComponent prompt) ;;
      let params :=
        URLSearchParams.new
          [ ("width", Number.toString width);
            ("height", Number.toString height);
            ("model", model);
            ("nologo", Boolean_toString nologo);
            ("enhance", Boolean_toString enhance) ] in
      let params :=
        match seed with
        | Some seed => URLSearchParams.append params "seed" (Number.toString seed)
        | None => params
        end in
      let imageUrl :=
        POLLINATIONS_IMAGE_API ++ "/" ++ encodedPrompt ++ "?"
          ++ URLSearchParams.toString params in
      response <- fetch imageUrl {| method := "HEAD"; headers := []; body := None |} ;;
      if negb (ok response) then
        throw (JsError ("Failed to generate image: " ++ statusText response))
      else
        ret {| content :=
                 [ TextContent
                     (JSON.stringify
                        [ ("success", JBool true);
                          ("imageUrl", JString imageUrl);
                          ("prompt", JString prompt);
                          ("width", JNumber width);
                          ("height", JNumber height);
                          ("model", JString model);
                          ("seed", maybe JNumber seed);
                          ("message",
                            JString "Image generated successfully! Use the imageUrl to display or download the image.") ]
                        2);
                   ImageContent imageUrl "image/jpeg" ];
               isError := None |}
  end.

Definition case_generate_text (args : option Arguments) : Async CallToolResult :=
  let textArgs := asGenerateTextArgs (orEmpty args) in
  let locals := destructureTextArgs textArgs in
  let model := TextLocals.model locals in
  let seed := TextLocals.seed locals in
  let temperature := TextLocals.temperature locals in
  let max_tokens := TextLocals.max_tokens locals in
  let system := TextLocals.system locals in
  match TextLocals.prompt locals with
  | None | Some EmptyString => throw (JsError "Prompt is required")
  | Some prompt =>
      let requestBody :=
        [ ("messages",
            JArray
              (match system with
               | None | Some EmptyString => []
               | Some system =>
                   [JObject [("role", JString "system"); ("content", JString system)]]
               end
               ++ [JObject [("role", JString "user"); ("content", JString prompt)]])%list);
          ("model", JString model);
          ("temperature", JNumber temperature) ] in
      let requestBody :=
        match seed with
        | Some seed => setProperty requestBody "seed" (JNumber seed)
        | None => requestBody
        end in
      let requestBody :=
        match max_tokens with
        | Some max_tokens => setProperty requestBody "max_tokens" (JNumber max_tokens)
        | None => requestBody
        end in
      response <- fetch POLLINATIONS_TEXT_API
                    {| method := "POST";
                       headers := [("Content-Type", "application/json")];
                       body := Some (JSON.stringify requestBody 0) |} ;;
      if negb (ok response) then
        throw (JsError ("Failed to generate text: " ++ statusText response))
      else
        text <- Response_text response ;;
        ret {| content :=
                 [ TextContent
                     (JSON.stringify
                        [ ("success", JBool true);
                          ("response", JString text);
                          ("model", JString model);
                          ("prompt", JString prompt);
                          ("seed", maybe JNumber seed);
                          ("temperature", JNumber temperature) ]
                        2) ];
               isError := None |}
  end.

Definition modelEntry (name description : string) : json :=
  JObject [("name", JString name); ("description", JString description)].

Definition image_models : list json :=
  [ modelEntry "flux" "High-quality general purpose image generation";
    modelEntry "flux-realism" "Photorealistic image generation";
    modelEntry "flux-anime" "Anime and manga style images";
    modelEntry "flux-3d" "3D rendered style images";
    modelEntry "turbo" "Fast image generation with good quality" ].

Definition text_models : list json :=
  [ modelEntry "openai" "OpenAI GPT models (default)";
    modelEntry "mistral" "Mistral AI model";
    modelEntry "mistral-large" "Mistral Large model for complex tasks";
    modelEntry "claude-3.5-sonnet" "Anthropic Claude 3.5 Sonnet";
    modelEntry "llama-3.3-70b" "Meta Llama 3.3 70B";
    modelEntry "qwen-2.5-coder-32b" "Qwen 2.5 Coder 32B - specialized for coding";
    modelEntry "searchgpt" "Search-augmented generation model" ].

Definition models : list (string * json) :=
  [ ("image_models", JArray image_models); ("text_models", JArray text_models) ].

Definition case_get_available_models : Async CallToolResult :=
  ret {| content := [TextContent (JSON.stringify models 2)]; isError := None |}.

(** *** The call_tool handler *)

(** The body of the [try] block: the [switch] on the tool name. *)
Definition dispatch (request : CallToolRequest) : Async CallToolResult :=
  let name := name request in
  let args := arguments request in
  if String.eqb name "generate_image" then case_generate_image args
  else if String.eqb name "generate_text" then case_generate_text args
  else if String.eqb name "get_available_models" then case_get_available_models
  else throw (JsError ("Unknown tool: " ++ name)).

(** The [catch] block. *)
Definition handleError (error : thrown) : Async CallToolResult :=
  let errorMessage :=
    match error with
    | JsError message => message
    | NotAnError => "Unknown error occurred"
    end in
  ret {| content :=
           [ TextContent
               (JSON.stringify
                  [("success", JBool false); ("error", JString errorMessage)] 2) ];
         isError := Some true |}.

Definition callTool (request : CallToolRequest) : Async CallToolResult :=
  tryCatch (dispatch request) handleError.

(** One invocation against a remote, from an empty call log: the calls made
    and what the handler hands back to the protocol layer. *)
Definition invoke (remote : Remote) (request : CallToolRequest)
  : list Call * (thrown + CallToolResult) :=
  callTool request remote [].

(* ================================================================= *)
(** ** Remotes and requests to run the handler on *)

(** A remote that answers every call with the given status line and body. *)
Definition answering (code : Z) (reason : string) (payload : string) : Remote :=
  fun _ _ => inr {| status := code; statusText := reason; text := inr payload |}.

(** A remote that cannot be reached: every call is rejected with [e]. *)
Definition rejecting (e : thrown) : Remote := fun _ _ => inl e.

(** [{ prompt: p }] *)
Definition promptOnly (p : string) : Arguments :=
  {| arg_prompt := Some p; arg_width := None; arg_height := None; arg_seed := None;
     arg_model := None; arg_nologo := None; arg_enhance := None;
     arg_temperature := None; arg_max_tokens := None; arg_system := None |}.

(** The string that is one lone surrogate, the code unit [D800]: what the
    JSON text of a quote, a backslash, [ud800] and a quote parses to. *)
Definition loneSurrogate : string :=
  String (ascii_of_N 237) (String (ascii_of_N 160) (String (ascii_of_N 128) "")).

(** [{ prompt: <the lone surrogate>, model: "gpt-99", temperature: 3.5 }] *)
Definition malformedArguments : Arguments :=
  {| arg_prompt := Some loneSurrogate; arg_width := None; arg_height := None;
     arg_seed := None; arg_model := Some "gpt-99"; arg_nologo := None;
     arg_enhance := None; arg_temperature := Some 3.5%float;
     arg_max_tokens := None; arg_system := None |}.

(** [{ prompt: "hello", model: "mistral", temperature: 1.5 }] *)
Definition helloArguments : Arguments :=
  {| arg_prompt := Some "hello"; arg_width := None; arg_height := None; arg_seed := None;
     arg_model := Some "mistral"; arg_nologo := None; arg_enhance := None;
     arg_temperature := Some 1.5%float; arg_max_tokens := None; arg_system := None |}.

(** [{ prompt: "x", model: "gpt-99", temperature: 3.5 }]: a model that is in
    neither enumeration and a temperature above the declared maximum. *)
Definition undeclaredArguments : Arguments :=
  {| arg_prompt := Some "x"; arg_width := None; arg_height := None; arg_seed := None;
     arg_model := Some "gpt-99"; arg_nologo := None; arg_enhance := None;
     arg_temperature := Some 3.5%float; arg_max_tokens := None; arg_system := None |}.

(* ================================================================= *)
(** ** The envelopes of the specification *)

(** The failure envelope: the JSON text of [{success: false, error: message}]
    as only content part, and the error flag set. *)
Definition Failure (message : string) : CallToolResult :=
  {| content :=
       [ TextContent
           (JSON.stringify [("success", JBool false); ("error", JString message)] 2) ];
     isError := Some true |}.

(** A success envelope carries the given parts and no error flag. *)
Definition Success (parts : list ContentPart) : CallToolResult :=
  {| content := parts; isError := None |}.

(** The message a caught value carries: an [Error] has one, anything else
    that was thrown has none the handler could read. *)
Definition faultMessage (e : thrown) : option string :=
  match e with
  | JsError message => Some message
  | NotAnError => None
  end.

(** The message of the failure envelope for a caught value: its own when it
    carries one, the fixed fallback otherwise. *)
Definition errorMessageOf (e : thrown) : string :=
  match faultMessage e with
  | Some message => message
  | None => "Unknown error occurred"
  end.

(** The prompt is absent (also when there is no argument object) or empty. *)
Definition promptMissing (args : option Arguments) : Prop :=
  arg_prompt (orEmpty args) = None \/ arg_prompt (orEmpty args) = Some "".

(** The prompt is present and not empty. *)
Definition promptIs (args : option Arguments) (p : string) : Prop :=
  arg_prompt (orEmpty args) = Some p /\ p <> "".

(** The locals of each tool after destructuring. *)
Definition imageLocals (args : option Arguments) : ImageLocals.t :=
  destructureImageArgs (asGenerateImageArgs (orEmpty args)).

Definition textLocals (args : option Arguments) : TextLocals.t :=
  destructureTextArgs (asGenerateTextArgs (orEmpty args)).

(** *** The outbound requests as the specification words them *)

(** Section 6: [<base>/<url-encoded-prompt>?width=&height=&model=&nologo=&enhance=]
    and then [&seed=] when a seed was supplied. *)
Definition spec_query (l : ImageLocals.t) : string :=
  "width="
  ++ URLSearchParams.serialize (toUSVString (Number.toString (ImageLocals.width l)))
  ++ "&height="
  ++ URLSearchParams.serialize (toUSVString (Number.toString (ImageLocals.height l)))
  ++ "&model=" ++ URLSearchParams.serialize (toUSVString (ImageLocals.model l))
  ++ "&nologo=" ++ Boolean_toString (ImageLocals.nologo l)
  ++ "&enhance=" ++ Boolean_toString (ImageLocals.enhance l)
  ++ match ImageLocals.seed l with
     | Some seed =>
         "&seed=" ++ URLSearchParams.serialize (toUSVString (Number.toString seed))
     | None => ""
     end.

Definition spec_imageUrl (l : ImageLocals.t) (prompt : string) : string :=
  POLLINATIONS_IMAGE_API ++ "/" ++ percentEscape prompt ++ "?" ++ spec_query l.

Definition spec_imageCall (l : ImageLocals.t) (prompt : string) : Call :=
  (spec_imageUrl l prompt, {| method := "HEAD"; headers := []; body := None |}).

(** Section 4.3: [{messages: [optional system, user], model, temperature,
    seed?, max_tokens?}]. *)
Definition spec_messages (system : option string) (prompt : string) : list json :=
  (match system with
   | Some (String c s) =>
       [JObject [("role", JString "system"); ("content", JString (String c s))]]
   | _ => []
   end
   ++ [JObject [("role", JString "user"); ("content", JString prompt)]])%list.

Definition spec_textBody (l : TextLocals.t) (prompt : string) : list (string * json) :=
  ([ ("messages", JArray (spec_messages (TextLocals.system l) prompt));
     ("model", JString (TextLocals.model l));
     ("temperature", JNumber (TextLocals.temperature l)) ]
   ++ match TextLocals.seed l with
      | Some seed => [("seed", JNumber seed)]
      | None => []
      end
   ++ match TextLocals.max_tokens l with
      | Some max_tokens => [("max_tokens", JNumber max_tokens)]
      | None => []
      end)%list.

Definition spec_textCall (l : TextLocals.t) (prompt : string) : Call :=
  (POLLINATIONS_TEXT_API,
   {| method := "POST";
      headers := [("Content-Type", "application/json")];
      body := Some (JSON.stringify (spec_textBody l prompt) 0) |}).

(** *** The success payloads as the specification words them *)

(** Section 4.3: [{success: true, imageUrl, prompt, width, height, model,
    seed, message}]; the seed is undefined when none was supplied. *)
Definition spec_imagePayload (l : ImageLocals.t) (prompt imageUrl : string)
  : list (string * json) :=
  [ ("success", JBool true);
    ("imageUrl", JString imageUrl);
    ("prompt", JString prompt);
    ("width", JNumber (ImageLocals.width l));
    ("height", JNumber (ImageLocals.height l));
    ("model", JString (ImageLocals.model l));
    ("seed", maybe JNumber (ImageLocals.seed l));
    ("message",
      JString "Image generated successfully! Use the imageUrl to display or download the image.") ].

(** Section 4.3: [{success: true, response, model, prompt, seed, temperature}]. *)
Definition spec_textPayload (l : TextLocals.t) (prompt raw : string)
  : list (string * json) :=
  [ ("success", JBool true);
    ("response", JString raw);
    ("model", JString (TextLocals.model l));
    ("prompt", JString prompt);
    ("seed", maybe JNumber (TextLocals.seed l));
    ("temperature", JNumber (TextLocals.temperature l)) ].

(** Characters that may stand in one path segment after escaping. *)
Definition segmentChar (c : ascii) : bool := uriUnescaped c || Ascii.eqb c "%".

Fixpoint everyChar (p : ascii -> bool) (s : string) : bool :=
  match s with
  | EmptyString => true
  | String c s' => p c && everyChar p s'
  end.

(** The names of the entries of a model list. *)
Definition entryName (entry : json) : option string :=
  match entry with
  | JObject (("name", JString n) :: _) => Some n
  | _ => None
  end.

(* ================================================================= *)
(** ** The paths through the handler

    One constructor per way an invocation can end: the calls it made and the
    result it handed back. *)

Definition headInit : RequestInit := {| method := "HEAD"; headers := []; body := None |}.

Inductive Outcome (remote : Remote) (request : CallToolRequest)
  : list Call -> CallToolResult -> Prop :=
| UnknownTool :
    name request <> "generate_image" ->
    name request <> "generate_text" ->
    name request <> "get_available_models" ->
    Outcome remote request [] (Failure ("Unknown tool: " ++ name request))
| ModelsListed :
    name request = "get_available_models" ->
    Outcome remote request [] (Success [TextContent (JSON.stringify models 2)])
| PromptRequired :
    name request = "generate_image" \/ name request = "generate_text" ->
    promptMissing (arguments request) ->
    Outcome remote request [] (Failure "Prompt is required")
| ImageMalformed (p : string) :
    name request = "generate_image" ->
    promptIs (arguments request) p ->
    hasLoneSurrogate p = true ->
    Outcome remote request [] (Failure "URI malformed")
| ImageRejected (p : string) (e : thrown) :
    name request = "generate_image" ->
    promptIs (arguments request) p ->
    hasLoneSurrogate p = false ->
    remote (spec_imageUrl (imageLocals (arguments request)) p) headInit = inl e ->
    Outcome remote request
      [spec_imageCall (imageLocals (arguments request)) p]
      (Failure (errorMessageOf e))
| ImageRefused (p : string) (response : Response) :
    name request = "generate_image" ->
    promptIs (arguments request) p ->
    hasLoneSurrogate p = false ->
    remote (spec_imageUrl (imageLocals (arguments request)) p) headInit = inr response ->
    ok response = false ->
    Outcome remote request
      [spec_imageCall (imageLocals (arguments request)) p]
      (Failure ("Failed to generate image: " ++ statusText response))
| ImageGenerated (p : string) (response : Response) :
    name request = "generate_image" ->
    promptIs (arguments request) p ->
    hasLoneSurrogate p = false ->
    remote (spec_imageUrl (imageLocals (arguments request)) p) headInit = inr response ->
    ok response = true ->
    Outcome remote request
      [spec_imageCall (imageLocals (arguments request)) p]
      (Success
         [ TextContent
             (JSON.stringify
                (spec_imagePayload (imageLocals (arguments request)) p
                   (spec_imageUrl (imageLocals (arguments request)) p)) 2);
           ImageContent (spec_imageUrl (imageLocals (arguments request)) p) "image/jpeg" ])
| TextRejected (p : string) (e : thrown) :
    name request = "generate_text" ->
    promptIs (arguments request) p ->
    remote (fst (spec_textCall (textLocals (arguments request)) p))
           (snd (spec_textCall (textLocals (arguments request)) p)) = inl e ->
    Outcome remote request
      [spec_textCall (textLocals (arguments request)) p]
      (Failure (errorMessageOf e))
| TextRefused (p : string) (response : Response) :
    name request = "generate_text" ->
    promptIs (arguments request) p ->
    remote (fst (spec_textCall (textLocals (arguments request)) p))
           (snd (spec_textCall (textLocals (arguments request)) p)) = inr response ->
    ok response = false ->
    Outcome remote request
      [spec_textCall (textLocals (arguments request)) p]
      (Failure ("Failed to generate text: " ++ statusText response))
| TextUnreadable (p : string) (response : Response) (e : thrown) :
    name request = "generate_text" ->
    promptIs (arguments request) p ->
    remote (fst (spec_textCall (textLocals (arguments request)) p))
           (snd (spec_textCall (textLocals (arguments request)) p)) = inr response ->
    ok response = true ->
    text response = inl e ->
    Outcome remote request
      [spec_textCall (textLocals (arguments request)) p]
      (Failure (errorMessageOf e))
| TextGenerated (p : string) (response : Response) (raw : string) :
    name request = "generate_text" ->
    promptIs (arguments request) p ->
    remote (fst (spec_textCall (textLocals (arguments request)) p))
           (snd (spec_textCall (textLocals (arguments request)) p)) = inr response ->
    ok response = true ->
    text response = inr raw ->
    Outcome remote request
      [spec_textCall (textLocals (arguments request)) p]
      (Success
         [TextContent
            (JSON.stringify (spec_textPayload (textLocals (arguments request)) p raw) 2)]).

(* ================================================================= *)
(** ** Views used by the further properties *)

(** [args[key]]: the argument object read by property name. *)
Definition argument (a : Arguments) (key : string) : json :=
  if String.eqb key "prompt" then maybe JString (arg_prompt a)
  else if String.eqb key "width" then maybe JNumber (arg_width a)
  else if String.eqb key "height" then maybe JNumber (arg_height a)
  else if String.eqb key "seed" then maybe JNumber (arg_seed a)
  else if String.eqb key "model" then maybe JString (arg_model a)
  else if String.eqb key "nologo" then maybe JBool (arg_nologo a)
  else if String.eqb key "enhance" then maybe JBool (arg_enhance a)
  else if String.eqb key "temperature" then maybe JNumber (arg_temperature a)
  else if String.eqb key "max_tokens" then maybe JNumber (arg_max_tokens a)
  else if String.eqb key "system" then maybe JString (arg_system a)
  else JUndefined.

(** The argument names the catalog declares for a tool. *)
Definition declaredKeys (tool : string) : list string :=
  match find (fun t => String.eqb (Schema.name t) tool) tools with
  | Some t => map fst (Schema.properties t)
  | None => []
  end.

(** [{ prompt: "x", model: "gpt-99" }] *)
Definition promptAndModel : Arguments :=
  {| arg_prompt := Some "x"; arg_width := None; arg_height := None; arg_seed := None;
     arg_model := Some "gpt-99"; arg_nologo := None; arg_enhance := None;
     arg_temperature := None; arg_max_tokens := None; arg_system := None |}.

(** How the text of a result starts when its first member is [success]. *)
Definition successMember (flag : bool) : string :=
  "{" ++ LF ++ "  " ++ DQUOTE ++ "success" ++ DQUOTE ++ ": " ++ Boolean_toString flag ++ ",".

(** How the text of the model list starts. *)
Definition modelsMember : string :=
  "{" ++ LF ++ "  " ++ DQUOTE ++ "image_models" ++ DQUOTE ++ ": [".

(** Whether a text occurs somewhere in another. *)
Fixpoint occursIn (needle hay : string) : bool :=
  prefix needle hay
  || match hay with
     | EmptyString => false
     | String _ rest => occursIn needle rest
     end.

(** The key of the [success] member as it is written in a payload. *)
Definition successKey : string := DQUOTE ++ "success" ++ DQUOTE.

(** The characters an outbound URL is made of. *)
Definition urlChar (c : ascii) : bool := isAlnum c || oneOf "-_.!~*'()%/?=&:+" c.

Definition isNot (c : ascii) (x : ascii) : bool := negb (Ascii.eqb x c).

(** Undoing the [%XX] escapes. *)
Definition hexValue (c : ascii) : option N :=
  let n := N_of_ascii c in
  if isDigit c then Some (n - 48)%N
  else if ((65 <=? n) && (n <=? 70))%N then Some (n - 55)%N
  else if ((97 <=? n) && (n <=? 102))%N then Some (n - 87)%N
  else None.

Fixpoint percentDecode (s : string) : option string :=
  match s with
  | EmptyString => Some ""
  | String c rest =>
      if Ascii.eqb c "%" then
        match rest with
        | String h (String l rest') =>
            match hexValue h, hexValue l with
            | Some a, Some b =>
                option_map (String (ascii_of_N (16 * a + b))) (percentDecode rest')
            | _, _ => None
            end
        | _ => None
        end
      else option_map (String c) (percentDecode rest)
  end.

(** The part of a string before the first occurrence of a character. *)
Fixpoint upTo (c : ascii) (s : string) : string :=
  match s with
  | EmptyString => ""
  | String x rest => if Ascii.eqb x c then "" else String x (upTo c rest)
  end.

(** Dropping the first [n] characters. *)
Fixpoint dropChars (n : nat) (s : string) : string :=
  match n, s with
  | O, _ => s
  | S n', String _ rest => dropChars n' rest
  | S _, EmptyString => ""
  end.

(** Reading the prompt back from the URL of an image request: what stands
    between the base endpoint's slash and the question mark, unescaped. *)
Definition promptOfImageUrl (url : string) : option string :=
  if prefix (POLLINATIONS_IMAGE_API ++ "/") url then
    percentDecode (upTo "?" (dropChars (String.length (POLLINATIONS_IMAGE_API ++ "/")) url))
  else None.

(** Reading a JSON string back: the characters up to the closing quote,
    escapes undone, and what follows the quote. It reads what
    QuoteJSONString writes: of the [\u] escapes, those below 128 and those of
    a surrogate code unit. *)
Definition unescape (e : ascii) : option ascii :=
  if Ascii.eqb e "b" then Some (ascii_of_N 8)
  else if Ascii.eqb e "t" then Some (ascii_of_N 9)
  else if Ascii.eqb e "n" then Some (ascii_of_N 10)
  else if Ascii.eqb e "f" then Some (ascii_of_N 12)
  else if Ascii.eqb e "r" then Some (ascii_of_N 13)
  else if Ascii.eqb e (ascii_of_N 34) then Some (ascii_of_N 34)
  else if Ascii.eqb e "\" then Some "\"%char
  else if Ascii.eqb e "/" then Some "/"%char
  else None.

Definition consChar (c : ascii) (r : option (string * string)) : option (string * string) :=
  match r with
  | Some (decoded, rest) => Some (String c decoded, rest)
  | None => None
  end.

Fixpoint unquoteBody (s : string) : option (string * string) :=
  match s with
  | EmptyString => None
  | String c rest =>
      if Ascii.eqb c (ascii_of_N 34) then Some ("", rest)
      else if Ascii.eqb c "\" then
        match rest with
        | String e rest1 =>
            if Ascii.eqb e "u" then
              match rest1 with
              | String h1 (String h2 (String h3 (String h4 rest2))) =>
                  match hexValue h1, hexValue h2, hexValue h3, hexValue h4 with
                  | Some a, Some b, Some c', Some d =>
                      let unit := (4096 * a + 256 * b + 16 * c' + d)%N in
                      if (unit <? 128)%N
                      then consChar (ascii_of_N unit) (unquoteBody rest2)
                      else if ((55296 <=? unit) && (unit <=? 57343))%N
                      then consChar (ascii_of_N 237)
                             (consChar (ascii_of_N (160 + (unit - 55296) / 64))
                                (consChar (ascii_of_N (128 + (unit - 55296) mod 64))
                                   (unquoteBody rest2)))
                      else None
                  | _, _, _, _ => None
                  end
              | _ => None
              end
            else
              match unescape e with
              | Some ch => consChar ch (unquoteBody rest1)
              | None => None
              end
        | EmptyString => None
        end
      else consChar c (unquoteBody rest)
  end.

(** The text before the value of the member that follows [success]. *)
Definition memberAfterSuccess (flag : bool) (key : string) : string :=
  successMember flag ++ LF ++ "  " ++ DQUOTE ++ key ++ DQUOTE ++ ": ".

(** The string value of the member that follows [success] in a payload. *)
Definition readMember (flag : bool) (key : string) (payload : string) : option string :=
  if prefix (memberAfterSuccess flag key) payload then
    match dropChars (String.length (memberAfterSuccess flag key)) payload with
    | String q rest =>
        if Ascii.eqb q (ascii_of_N 34) then option_map fst (unquoteBody rest) else None
    | EmptyString => None
    end
  else None.

(** How often a character occurs in a string. *)
Fixpoint countChar (c : ascii) (s : string) : nat :=
  match s with
  | EmptyString => 0
  | String x rest => (if Ascii.eqb x c then 1 else 0) + countChar c rest
  end.

(** Two answers to a HEAD request that differ at most in the body and in the
    status number on the same side of the 200-299 test. *)
Definition sameHead (a b : thrown + Response) : Prop :=
  match a, b with
  | inl e1, inl e2 => e1 = e2
  | inr r1, inr r2 => ok r1 = ok r2 /\ statusText r1 = statusText r2
  | _, _ => False
  end.

Arguments Number.toString : simpl never.
Arguments JSON.stringify : simpl never.
Arguments percentEscape : simpl never.

(* ================================================================= *)
(** * Properties *)

(** ** Strings *)

Lemma append_nil_r (s : string) : s ++ "" = s.
Proof. induction s as [|c s IH]; simpl; [reflexivity | now rewrite IH]. Qed.

Lemma append_assoc (s1 s2 s3 : string) : (s1 ++ s2) ++ s3 = s1 ++ (s2 ++ s3).
Proof. induction s1 as [|c s1 IH]; simpl; congruence. Qed.

Lemma everyChar_app (p : ascii -> bool) (s1 s2 : string) :
  everyChar p (s1 ++ s2) = everyChar p s1 && everyChar p s2.
Proof.
  induction s1 as [|c s1 IH]; simpl.
  - reflexivity.
  - now rewrite IH, andb_assoc.
Qed.

Lemma everyChar_concatMap (p : ascii -> bool) (f : ascii -> string) (s : string) :
  (forall c, everyChar p (f c) = true) -> everyChar p (concatMap f s) = true.
Proof.
  intros Hf. induction s as [|c s IH]; simpl.
  - reflexivity.
  - rewrite everyChar_app, Hf, IH. reflexivity.
Qed.

Lemma percentEncode_segment (c : ascii) : everyChar segmentChar (percentEncode c) = true.
Proof. destruct c as [[] [] [] [] [] [] [] []]; vm_compute; reflexivity. Qed.

(** An escaped component is made of unreserved characters and [%XX] escapes
    only: it holds no slash, question mark, hash or ampersand. *)
Lemma percentEscape_segment (s : string) :
  everyChar segmentChar (percentEscape s) = true.
Proof.
  unfold percentEscape. apply everyChar_concatMap. intros c.
  destruct (uriUnescaped c) eqn:Hc.
  - simpl. unfold segmentChar. now rewrite Hc.
  - apply percentEncode_segment.
Qed.

Lemma serialize_Boolean_toString (b : bool) :
  URLSearchParams.serialize (toUSVString (Boolean_toString b)) = Boolean_toString b.
Proof. destruct b; reflexivity. Qed.

(** ** Asynchronous computations *)

Lemma bind_ret {A B} (a : A) (k : A -> Async B) remote log :
  bind (ret a) k remote log = k a remote log.
Proof. reflexivity. Qed.

Lemma bind_throw {A B} (e : thrown) (k : A -> Async B) remote log :
  bind (throw e) k remote log = (log, inl e).
Proof. reflexivity. Qed.

Lemma tryCatch_returns {A} (m : Async A) (h : thrown -> Async A) remote log :
  (forall e log', exists log'' a, h e remote log' = (log'', inr a)) ->
  exists log' a, tryCatch m h remote log = (log', inr a).
Proof.
  intros Hh. unfold tryCatch.
  destruct (m remote log) as [log' [e | a]].
  - apply Hh.
  - now exists log', a.
Qed.

(** What the handler makes of the outcome of its [try] block. *)
Lemma invoke_dispatch remote request :
  invoke remote request =
  match dispatch request remote [] with
  | (calls, inl e) =>
      (calls, inr (Failure (errorMessageOf e)))
  | (calls, inr result) => (calls, inr result)
  end.
Proof.
  unfold invoke, callTool, tryCatch.
  destruct (dispatch request remote []) as [calls [[message | ] | result]]; reflexivity.
Qed.

(** ** The image tool *)

(** The query string the code builds is the one of the specification. *)
Lemma query_spec (l : ImageLocals.t) :
  URLSearchParams.toString
    (match ImageLocals.seed l with
     | Some seed =>
         URLSearchParams.append
           (URLSearchParams.new
              [ ("width", Number.toString (ImageLocals.width l));
                ("height", Number.toString (ImageLocals.height l));
                ("model", ImageLocals.model l);
                ("nologo", Boolean_toString (ImageLocals.nologo l));
                ("enhance", Boolean_toString (ImageLocals.enhance l)) ])
           "seed" (Number.toString seed)
     | None =>
         URLSearchParams.new
           [ ("width", Number.toString (ImageLocals.width l));
             ("height", Number.toString (ImageLocals.height l));
             ("model", ImageLocals.model l);
             ("nologo", Boolean_toString (ImageLocals.nologo l));
             ("enhance", Boolean_toString (ImageLocals.enhance l)) ]
     end)
  = spec_query l.
Proof.
  unfold spec_query, URLSearchParams.toString, URLSearchParams.append, URLSearchParams.new.
  destruct (ImageLocals.seed l) as [seed|]; cbn [map app fst snd]; unfold join;
    rewrite !serialize_Boolean_toString;
    change (URLSearchParams.serialize (toUSVString "width")) with "width";
    change (URLSearchParams.serialize (toUSVString "height")) with "height";
    change (URLSearchParams.serialize (toUSVString "model")) with "model";
    change (URLSearchParams.serialize (toUSVString "nologo")) with "nologo";
    change (URLSearchParams.serialize (toUSVString "enhance")) with "enhance";
    try change (URLSearchParams.serialize (toUSVString "seed")) with "seed";
    repeat rewrite append_assoc; simpl.
  - reflexivity.
  - now rewrite append_nil_r.
Qed.

(** What the image case does once the prompt is there and can be encoded:
    one HEAD call to the URL of the specification, and a result that only
    depends on the answer. *)
Lemma case_generate_image_run (args : option Arguments) (p : string) remote log :
  promptIs args p ->
  hasLoneSurrogate p = false ->
  case_generate_image args remote log =
  let l := imageLocals args in
  let imageUrl := spec_imageUrl l p in
  ((log ++ [spec_imageCall l p])%list,
   match remote imageUrl {| method := "HEAD"; headers := []; body := None |} with
   | inl e => inl e
   | inr response =>
       if ok response then
         inr (Success [ TextContent (JSON.stringify (spec_imagePayload l p imageUrl) 2);
                        ImageContent imageUrl "image/jpeg" ])
       else inl (JsError ("Failed to generate image: " ++ statusText response))
   end).
Proof.
  intros [Hp Hne] Hwell. unfold case_generate_image.
  change (destructureImageArgs (asGenerateImageArgs (orEmpty args))) with (imageLocals args).
  change (ImageLocals.prompt (imageLocals args)) with (arg_prompt (orEmpty args)).
  rewrite Hp. destruct p as [|c p]; [congruence|].
  cbv zeta. unfold encodeURIComponent. rewrite Hwell.
  unfold bind at 1. unfold evaluate. rewrite query_spec.
  fold (spec_imageUrl (imageLocals args) (String c p)).
  unfold bind, fetch, spec_imageCall.
  destruct (remote _ _) as [e | response]; [reflexivity|].
  destruct (ok response); reflexivity.
Qed.

(** A prompt with a lone surrogate cannot be encoded: the URIError is thrown
    before anything is sent. *)
Lemma case_generate_image_malformed (args : option Arguments) (p : string) remote log :
  promptIs args p ->
  hasLoneSurrogate p = true ->
  case_generate_image args remote log = (log, inl (JsError "URI malformed")).
Proof.
  intros [Hp Hne] Hbad. unfold case_generate_image.
  change (ImageLocals.prompt (destructureImageArgs (asGenerateImageArgs (orEmpty args))))
    with (arg_prompt (orEmpty args)).
  rewrite Hp. destruct p as [|c p]; [congruence|].
  cbv zeta. unfold encodeURIComponent. rewrite Hbad. reflexivity.
Qed.

Lemma case_generate_image_missing (args : option Arguments) remote log :
  promptMissing args ->
  case_generate_image args remote log = (log, inl (JsError "Prompt is required")).
Proof.
  intros H. unfold case_generate_image.
  change (ImageLocals.prompt (destructureImageArgs (asGenerateImageArgs (orEmpty args))))
    with (arg_prompt (orEmpty args)).
  destruct H as [-> | ->]; reflexivity.
Qed.

(** ** The text tool *)

Lemma case_generate_text_run (args : option Arguments) (p : string) remote log :
  promptIs args p ->
  case_generate_text args remote log =
  let l := textLocals args in
  ((log ++ [spec_textCall l p])%list,
   match remote (fst (spec_textCall l p)) (snd (spec_textCall l p)) with
   | inl e => inl e
   | inr response =>
       if ok response then
         match text response with
         | inl e => inl e
         | inr raw =>
             inr (Success [TextContent (JSON.stringify (spec_textPayload l p raw) 2)])
         end
       else inl (JsError ("Failed to generate text: " ++ statusText response))
   end).
Proof.
  intros [Hp Hne]. unfold case_generate_text.
  change (destructureTextArgs (asGenerateTextArgs (orEmpty args))) with (textLocals args).
  change (TextLocals.prompt (textLocals args)) with (arg_prompt (orEmpty args)).
  rewrite Hp. destruct p as [|c p]; [congruence|].
  cbv zeta.
  set (l := textLocals args).
  match goal with
  | |- context [JSON.stringify ?requestBody 0] =>
      replace requestBody with (spec_textBody l (String c p))
  end.
  2: { unfold spec_textBody, spec_messages.
       destruct (TextLocals.max_tokens l), (TextLocals.seed l),
         (TextLocals.system l) as [[|c' s']|]; reflexivity. }
  unfold bind, fetch, Response_text, spec_textCall, fst, snd.
  destruct (remote _ _) as [e | response]; [reflexivity|].
  destruct (ok response); [|reflexivity].
  destruct (text response); reflexivity.
Qed.

Lemma case_generate_text_missing (args : option Arguments) remote log :
  promptMissing args ->
  case_generate_text args remote log = (log, inl (JsError "Prompt is required")).
Proof.
  intros H. unfold case_generate_text.
  change (TextLocals.prompt (destructureTextArgs (asGenerateTextArgs (orEmpty args))))
    with (arg_prompt (orEmpty args)).
  destruct H as [-> | ->]; reflexivity.
Qed.

(** ** The handler, tool by tool *)

Lemma invoke_generate_image remote args p :
  promptIs args p ->
  hasLoneSurrogate p = false ->
  invoke remote {| name := "generate_image"; arguments := args |} =
  let l := imageLocals args in
  let imageUrl := spec_imageUrl l p in
  ([spec_imageCall l p],
   inr match remote imageUrl {| method := "HEAD"; headers := []; body := None |} with
       | inl e => Failure (errorMessageOf e)
       | inr response =>
           if ok response then
             Success [ TextContent (JSON.stringify (spec_imagePayload l p imageUrl) 2);
                       ImageContent imageUrl "image/jpeg" ]
           else Failure ("Failed to generate image: " ++ statusText response)
       end).
Proof.
  intros Hp Hwell. rewrite invoke_dispatch.
  change (dispatch {| name := "generate_image"; arguments := args |})
    with (case_generate_image args).
  rewrite (case_generate_image_run args p remote [] Hp Hwell). cbv zeta.
  destruct (remote _ _) as [e | response]; [reflexivity|].
  destruct (ok response); reflexivity.
Qed.

Lemma invoke_image_malformed remote args p :
  promptIs args p ->
  hasLoneSurrogate p = true ->
  invoke remote {| name := "generate_image"; arguments := args |} =
  ([], inr (Failure "URI malformed")).
Proof.
  intros Hp Hbad. rewrite invoke_dispatch.
  change (dispatch {| name := "generate_image"; arguments := args |})
    with (case_generate_image args).
  now rewrite (case_generate_image_malformed args p remote [] Hp Hbad).
Qed.

Lemma invoke_generate_text remote args p :
  promptIs args p ->
  invoke remote {| name := "generate_text"; arguments := args |} =
  let l := textLocals args in
  ([spec_textCall l p],
   inr match remote (fst (spec_textCall l p)) (snd (spec_textCall l p)) with
       | inl e => Failure (errorMessageOf e)
       | inr response =>
           if ok response then
             match text response with
             | inl e => Failure (errorMessageOf e)
             | inr raw => Success [TextContent (JSON.stringify (spec_textPayload l p raw) 2)]
             end
           else Failure ("Failed to generate text: " ++ statusText response)
       end).
Proof.
  intros Hp. rewrite invoke_dispatch.
  change (dispatch {| name := "generate_text"; arguments := args |})
    with (case_generate_text args).
  rewrite (case_generate_text_run args p remote [] Hp). cbv zeta.
  destruct (remote _ _) as [e | response]; [reflexivity|].
  destruct (ok response); [|reflexivity].
  destruct (text response); reflexivity.
Qed.

Lemma invoke_missing_prompt remote tool args :
  tool = "generate_image" \/ tool = "generate_text" ->
  promptMissing args ->
  invoke remote {| name := tool; arguments := args |} =
  ([], inr (Failure "Prompt is required")).
Proof.
  intros Htool Hmissing. rewrite invoke_dispatch.
  destruct Htool as [-> | ->].
  - change (dispatch {| name := "generate_image"; arguments := args |})
      with (case_generate_image args).
    now rewrite case_generate_image_missing.
  - change (dispatch {| name := "generate_text"; arguments := args |})
      with (case_generate_text args).
    now rewrite case_generate_text_missing.
Qed.

(** Every argument object either misses its prompt or has a non-empty one. *)
Lemma prompt_cases (args : option Arguments) :
  promptMissing args \/ exists p, promptIs args p.
Proof.
  unfold promptMissing, promptIs.
  destruct (arg_prompt (orEmpty args)) as [[|c p]|].
  - now left; right.
  - right. exists (String c p). split; [reflexivity | discriminate].
  - now left; left.
Qed.

(** ** JSON *)

(** A member whose value is undefined leaves no trace in the text. *)
Lemma serialize_drops_undefined gap indent (before after : list (string * json)) key :
  JSON.serialize gap indent (JObject (before ++ (key, JUndefined) :: after)) =
  JSON.serialize gap indent (JObject (before ++ after)).
Proof.
  simpl. do 2 f_equal.
  induction before as [|[k v] before IH]; simpl.
  - reflexivity.
  - rewrite IH. reflexivity.
Qed.

Lemma stringify_drops_undefined (before after : list (string * json)) key space :
  JSON.stringify (before ++ (key, JUndefined) :: after) space =
  JSON.stringify (before ++ after) space.
Proof. unfold JSON.stringify. now rewrite serialize_drops_undefined. Qed.

(** An object always has a text, and [stringify] returns it. *)
Lemma stringify_is_serialize (value : list (string * json)) (space : nat) :
  JSON.serialize (repeatString " " (Nat.min 10 space)) "" (JObject value) =
  Some (JSON.stringify value space).
Proof. unfold JSON.stringify. simpl. reflexivity. Qed.

(** ** Where faults come from *)

Lemma dispatch_unknown remote request :
  name request <> "generate_image" ->
  name request <> "generate_text" ->
  name request <> "get_available_models" ->
  dispatch request remote [] = ([], inl (JsError ("Unknown tool: " ++ name request))).
Proof.
  intros H1 H2 H3. unfold dispatch.
  apply String.eqb_neq in H1, H2, H3.
  rewrite H1, H2, H3. reflexivity.
Qed.

(** A fault of the [try] block is one of the handler's own three errors, the
    URIError of a prompt that cannot be encoded, or comes from the remote: a
    rejected call or a body that cannot be read. *)
Lemma dispatch_fault_origin remote request calls e :
  dispatch request remote [] = (calls, inl e) ->
  e = JsError "Prompt is required"
  \/ e = JsError ("Unknown tool: " ++ name request)
  \/ e = JsError "URI malformed"
  \/ (exists url init, remote url init = inl e)
  \/ (exists url init response,
        remote url init = inr response /\ ok response = false /\
        (e = JsError ("Failed to generate image: " ++ statusText response) \/
         e = JsError ("Failed to generate text: " ++ statusText response)))
  \/ (exists url init response, remote url init = inr response /\ text response = inl e).
Proof.
  destruct request as [tool args]. unfold dispatch. cbn [name arguments].
  destruct (String.eqb_spec tool "generate_image") as [-> | Himage].
  - destruct (prompt_cases args) as [Hmissing | [p Hp]].
    + rewrite case_generate_image_missing by assumption. intros [= _ <-]. now left.
    + destruct (hasLoneSurrogate p) eqn:Hwell.
      * rewrite (case_generate_image_malformed args p remote [] Hp Hwell).
        intros [= _ <-]. right; right; left. reflexivity.
      * rewrite (case_generate_image_run args p remote [] Hp Hwell). cbv zeta.
        destruct (remote _ _) as [e' | response] eqn:Hremote.
        -- intros [= _ <-]. do 3 right; left. eauto.
        -- destruct (ok response) eqn:Hok; [discriminate|].
           intros [= _ <-]. do 4 right; left.
           exists (spec_imageUrl (imageLocals args) p),
                  {| method := "HEAD"; headers := []; body := None |}, response.
           auto.
  - destruct (String.eqb_spec tool "generate_text") as [-> | Htext].
    + destruct (prompt_cases args) as [Hmissing | [p Hp]].
      * rewrite case_generate_text_missing by assumption. intros [= _ <-]. now left.
      * rewrite (case_generate_text_run args p remote [] Hp). cbv zeta.
        destruct (remote _ _) as [e' | response] eqn:Hremote.
        -- intros [= _ <-]. do 3 right; left. eauto.
        -- destruct (ok response) eqn:Hok.
           ++ destruct (text response) as [e' | raw] eqn:Htext'; [|discriminate].
              intros [= _ <-]. do 5 right. eauto.
           ++ intros [= _ <-]. do 4 right; left.
              exists (fst (spec_textCall (textLocals args) p)),
                     (snd (spec_textCall (textLocals args) p)), response.
              auto.
    + destruct (String.eqb_spec tool "get_available_models") as [-> | Hmodels].
      * discriminate.
      * intros [= _ <-]. right; left. reflexivity.
Qed.

(* ================================================================= *)
(** * The properties of the specification, one by one *)

(** C1. Whatever the remote does and whatever is asked, the handler hands
    back a result and never lets a fault through. When its [try] block
    raised a fault, the result is the failure envelope
    [{success: false, error: <message>}] with the error flag set; the message
    is the one the fault carries, and exactly the fallback text when the
    fault carries none. *)
Theorem fault_becomes_failure_envelope :
  forall (remote : Remote) (request : CallToolRequest),
  exists calls result,
    invoke remote request = (calls, inr result) /\
    match dispatch request remote [] with
    | (_, inl e) =>
        isError result = Some true /\
        match faultMessage e with
        | Some message => result = Failure message
        | None => result = Failure "Unknown error occurred"
        end
    | (_, inr returned) => result = returned
    end.
Proof.
  intros remote request. rewrite invoke_dispatch.
  destruct (dispatch request remote []) as [calls [e | returned]].
  - exists calls, (Failure (errorMessageOf e)). split; [reflexivity|].
    split; [reflexivity|].
    unfold errorMessageOf. destruct (faultMessage e); reflexivity.
  - exists calls, returned. split; reflexivity.
Qed.

(** C2. A generate_image or generate_text call whose prompt is absent or
    empty fails with the message [Prompt is required], and the call log is
    empty: nothing was sent. *)
Theorem missing_prompt_fails_before_any_call :
  forall (remote : Remote) (tool : string) (args : option Arguments),
    tool = "generate_image" \/ tool = "generate_text" ->
    promptMissing args ->
    invoke remote {| name := tool; arguments := args |} =
    ([], inr (Failure "Prompt is required")).
Proof.
  intros remote tool args Htool Hmissing.
  now apply invoke_missing_prompt.
Qed.

Lemma missing_prompt_witness :
  promptMissing (Some (promptOnly "")) /\
  invoke (answering 200 "OK" "ignored")
         {| name := "generate_text"; arguments := Some (promptOnly "") |} =
  ([], inr (Failure "Prompt is required")).
Proof.
  split.
  - right. reflexivity.
  - apply missing_prompt_fails_before_any_call.
    + right. reflexivity.
    + right. reflexivity.
Defined.

(** C3. A call to a name that is none of the three tools fails with the
    message [Unknown tool: <name>], and the call log is empty. *)
Theorem unknown_tool_fails_without_call :
  forall (remote : Remote) (request : CallToolRequest),
    name request <> "generate_image" ->
    name request <> "generate_text" ->
    name request <> "get_available_models" ->
    invoke remote request = ([], inr (Failure ("Unknown tool: " ++ name request))).
Proof.
  intros remote request H1 H2 H3.
  rewrite invoke_dispatch, dispatch_unknown by assumption.
  reflexivity.
Qed.

Lemma unknown_tool_witness :
  invoke (answering 200 "OK" "ignored")
         {| name := "unknown_op"; arguments := Some (promptOnly "x") |} =
  ([], inr (Failure "Unknown tool: unknown_op")).
Proof.
  apply (unknown_tool_fails_without_call
           (answering 200 "OK" "ignored")
           {| name := "unknown_op"; arguments := Some (promptOnly "x") |});
    cbn [name]; discriminate.
Defined.

(** C4 (amended). With a non-empty prompt that holds no lone surrogate,
    generate_image sends exactly one request: a HEAD to the base endpoint, a
    slash, the percent-encoded prompt (a single path segment), a question
    mark and the query [width=..&height=..&model=..&nologo=..&enhance=..],
    numbers printed by [toString] in radix 10 and booleans as
    [true]/[false]; [&seed=..] follows exactly when a seed was supplied.
    With a prompt that holds a lone surrogate, [encodeURIComponent] throws:
    nothing is sent and the result is the failure [URI malformed]. *)
Theorem image_url_shape :
  forall (remote : Remote) (args : option Arguments) (p : string),
    promptIs args p ->
    let l := imageLocals args in
    (hasLoneSurrogate p = false ->
     fst (invoke remote {| name := "generate_image"; arguments := args |}) =
       [ ( POLLINATIONS_IMAGE_API ++ "/" ++ percentEscape p ++ "?"
           ++ "width="
           ++ URLSearchParams.serialize (toUSVString (Number.toString (ImageLocals.width l)))
           ++ "&height="
           ++ URLSearchParams.serialize (toUSVString (Number.toString (ImageLocals.height l)))
           ++ "&model=" ++ URLSearchParams.serialize (toUSVString (ImageLocals.model l))
           ++ "&nologo=" ++ (if ImageLocals.nologo l then "true" else "false")
           ++ "&enhance=" ++ (if ImageLocals.enhance l then "true" else "false")
           ++ match arg_seed (orEmpty args) with
              | Some seed =>
                  "&seed=" ++ URLSearchParams.serialize (toUSVString (Number.toString seed))
              | None => ""
              end,
           {| method := "HEAD"; headers := []; body := None |} ) ]
     /\ everyChar segmentChar (percentEscape p) = true)
    /\ (hasLoneSurrogate p = true ->
        invoke remote {| name := "generate_image"; arguments := args |} =
        ([], inr (Failure "URI malformed"))).
Proof.
  intros remote args p Hp l. split.
  - intros Hwell. split.
    + rewrite (invoke_generate_image remote args p Hp Hwell). reflexivity.
    + apply percentEscape_segment.
  - intros Hbad. exact (invoke_image_malformed remote args p Hp Hbad).
Qed.

Lemma image_url_witness :
  promptIs (Some (promptOnly "a cat")) "a cat" /\
  hasLoneSurrogate "a cat" = false /\
  fst (invoke (answering 200 "OK" "")
              {| name := "generate_image"; arguments := Some (promptOnly "a cat") |}) =
  [ ("https://image.pollinations.ai/prompt/a%20cat?width=1024&height=1024&model=flux&nologo=true&enhance=false",
     {| method := "HEAD"; headers := []; body := None |}) ].
Proof.
  assert (H : promptIs (Some (promptOnly "a cat")) "a cat")
    by (split; [reflexivity | discriminate]).
  split; [exact H|]. split; [reflexivity|].
  destruct (image_url_shape (answering 200 "OK" "") (Some (promptOnly "a cat")) "a cat" H)
    as [Hsent _].
  destruct (Hsent eq_refl) as [Hurl _].
  rewrite Hurl. vm_compute. reflexivity.
Defined.

(** The claim as it was stated asks for the request at every non-empty
    prompt. At the prompt that is one lone surrogate (the JSON string
    written with the escape of [D800]) nothing is sent at all. *)
Lemma image_url_counterexample :
  promptIs (Some (promptOnly loneSurrogate)) loneSurrogate
  /\ invoke (answering 200 "OK" "")
            {| name := "generate_image"; arguments := Some (promptOnly loneSurrogate) |} =
     ([], inr (Failure "URI malformed"))
  /\ fst (invoke (answering 200 "OK" "")
                 {| name := "generate_image";
                    arguments := Some (promptOnly loneSurrogate) |}) <>
     [ ( POLLINATIONS_IMAGE_API ++ "/" ++ percentEscape loneSurrogate
           ++ "?width=1024&height=1024&model=flux&nologo=true&enhance=false",
         {| method := "HEAD"; headers := []; body := None |} ) ].
Proof.
  split; [split; [reflexivity | discriminate]|].
  split; [reflexivity|].
  vm_compute. discriminate.
Qed.

(** C5. With a non-empty prompt, when the HEAD request was sent and the
    remote answered it with a success status, generate_image returns a
    success with two parts in this order: a text part holding the JSON text
    of the object
    [{success: true, imageUrl, prompt, width, height, model, seed, message}]
    (its seed is undefined when none was supplied), then an image part whose
    payload is the URL that was requested. *)
Theorem image_success_result :
  forall (remote : Remote) (args : option Arguments) (p : string) (response : Response),
    promptIs args p ->
    let l := imageLocals args in
    let imageUrl := spec_imageUrl l p in
    In (imageUrl, {| method := "HEAD"; headers := []; body := None |})
       (fst (invoke remote {| name := "generate_image"; arguments := args |})) ->
    remote imageUrl {| method := "HEAD"; headers := []; body := None |} = inr response ->
    ok response = true ->
    invoke remote {| name := "generate_image"; arguments := args |} =
    ( [ (imageUrl, {| method := "HEAD"; headers := []; body := None |}) ],
      inr (Success
             [ TextContent
                 (JSON.stringify
                    [ ("success", JBool true);
                      ("imageUrl", JString imageUrl);
                      ("prompt", JString p);
                      ("width", JNumber (ImageLocals.width l));
                      ("height", JNumber (ImageLocals.height l));
                      ("model", JString (ImageLocals.model l));
                      ("seed", match arg_seed (orEmpty args) with
                               | Some seed => JNumber seed
                               | None => JUndefined
                               end);
                      ("message",
                        JString "Image generated successfully! Use the imageUrl to display or download the image.") ]
                    2);
               ImageContent imageUrl "image/jpeg" ]) ).
Proof.
  intros remote args p response Hp l imageUrl Hsent Hremote Hok.
  destruct (hasLoneSurrogate p) eqn:Hwell.
  - rewrite (invoke_image_malformed remote args p Hp Hwell) in Hsent. destruct Hsent.
  - rewrite (invoke_generate_image remote args p Hp Hwell). cbv zeta.
    fold l. fold imageUrl. rewrite Hremote, Hok. reflexivity.
Qed.

Lemma image_success_witness :
  invoke (answering 200 "OK" "")
         {| name := "generate_image"; arguments := Some (promptOnly "a cat") |} =
  ( [ ("https://image.pollinations.ai/prompt/a%20cat?width=1024&height=1024&model=flux&nologo=true&enhance=false",
       {| method := "HEAD"; headers := []; body := None |}) ],
    inr (Success
           [ TextContent
               (JSON.stringify
                  [ ("success", JBool true);
                    ("imageUrl",
                      JString "https://image.pollinations.ai/prompt/a%20cat?width=1024&height=1024&model=flux&nologo=true&enhance=false");
                    ("prompt", JString "a cat");
                    ("width", JNumber 1024);
                    ("height", JNumber 1024);
                    ("model", JString "flux");
                    ("seed", JUndefined);
                    ("message",
                      JString "Image generated successfully! Use the imageUrl to display or download the image.") ]
                  2);
             ImageContent
               "https://image.pollinations.ai/prompt/a%20cat?width=1024&height=1024&model=flux&nologo=true&enhance=false"
               "image/jpeg" ]) ).
Proof.
  rewrite (image_success_result (answering 200 "OK" "") (Some (promptOnly "a cat")) "a cat"
             {| status := 200; statusText := "OK"; text := inr "" |}).
  - vm_compute. reflexivity.
  - split; [reflexivity | discriminate].
  - vm_compute. left. reflexivity.
  - reflexivity.
  - reflexivity.
Defined.

(** C6. With a non-empty prompt, generate_text sends exactly one request: a
    POST to the text endpoint with the header Content-Type: application/json
    and, as body, the JSON text of [{messages, model, temperature}], where
    messages holds the system message (when a non-empty one was given) and
    then the user message with the prompt; seed and max_tokens are members of
    the body exactly when they were supplied. When the remote answers with a
    success status and a readable body, the result is a success with one text
    part: the JSON text of
    [{success: true, response, model, prompt, seed, temperature}] with the
    raw body as response. *)
Theorem text_request_and_result :
  forall (remote : Remote) (args : option Arguments) (p : string),
    promptIs args p ->
    let l := textLocals args in
    let requestBody :=
      ([ ("messages",
           JArray
             (match arg_system (orEmpty args) with
              | Some (String c s) =>
                  [JObject [("role", JString "system"); ("content", JString (String c s))]]
              | _ => []
              end
              ++ [JObject [("role", JString "user"); ("content", JString p)]]));
         ("model", JString (TextLocals.model l));
         ("temperature", JNumber (TextLocals.temperature l)) ]
       ++ match arg_seed (orEmpty args) with
          | Some seed => [("seed", JNumber seed)]
          | None => []
          end
       ++ match arg_max_tokens (orEmpty args) with
          | Some max_tokens => [("max_tokens", JNumber max_tokens)]
          | None => []
          end)%list in
    let init :=
      {| method := "POST";
         headers := [("Content-Type", "application/json")];
         body := Some (JSON.stringify requestBody 0) |} in
    fst (invoke remote {| name := "generate_text"; arguments := args |}) =
      [ (POLLINATIONS_TEXT_API, init) ]
    /\ forall (response : Response) (raw : string),
         remote POLLINATIONS_TEXT_API init = inr response ->
         ok response = true ->
         text response = inr raw ->
         snd (invoke remote {| name := "generate_text"; arguments := args |}) =
         inr (Success
                [ TextContent
                    (JSON.stringify
                       [ ("success", JBool true);
                         ("response", JString raw);
                         ("model", JString (TextLocals.model l));
                         ("prompt", JString p);
                         ("seed", match arg_seed (orEmpty args) with
                                  | Some seed => JNumber seed
                                  | None => JUndefined
                                  end);
                         ("temperature", JNumber (TextLocals.temperature l)) ]
                       2) ]).
Proof.
  intros remote args p Hp l requestBody init.
  rewrite (invoke_generate_text remote args p Hp). cbv zeta.
  change (spec_textCall (textLocals args) p) with (POLLINATIONS_TEXT_API, init).
  split; [reflexivity|].
  intros response raw Hremote Hok Hraw.
  cbn [fst snd]. rewrite Hremote, Hok, Hraw. reflexivity.
Qed.

Lemma text_request_witness :
  promptIs (Some helloArguments) "hello" /\
  invoke (answering 200 "OK" "hi there")
         {| name := "generate_text"; arguments := Some helloArguments |} =
  ( [ (POLLINATIONS_TEXT_API,
       {| method := "POST";
          headers := [("Content-Type", "application/json")];
          body :=
            Some (JSON.stringify
                    [ ("messages",
                        JArray [JObject [("role", JString "user");
                                         ("content", JString "hello")]]);
                      ("model", JString "mistral");
                      ("temperature", JNumber 1.5) ]
                    0) |}) ],
    inr (Success
           [ TextContent
               (JSON.stringify
                  [ ("success", JBool true);
                    ("response", JString "hi there");
                    ("model", JString "mistral");
                    ("prompt", JString "hello");
                    ("seed", JUndefined);
                    ("temperature", JNumber 1.5) ]
                  2) ]) ).
Proof.
  assert (H : promptIs (Some helloArguments) "hello")
    by (split; [reflexivity | discriminate]).
  split; [exact H|].
  destruct (text_request_and_result (answering 200 "OK" "hi there")
              (Some helloArguments) "hello" H) as [Hcall Hresult].
  specialize (Hresult {| status := 200; statusText := "OK"; text := inr "hi there" |}
                "hi there" eq_refl eq_refl eq_refl).
  rewrite (surjective_pairing (invoke _ _)), Hcall, Hresult.
  reflexivity.
Defined.

(** C7. With a non-empty prompt, when the remote answers the request with a
    status outside 200-299, generate_image fails with
    [Failed to generate image: <status text>] and generate_text with
    [Failed to generate text: <status text>]; the status text is the
    remote's, as it is. For generate_image this is said of a call whose HEAD
    request was sent; generate_text always sends its request. *)
Theorem remote_error_status_fails :
  forall (remote : Remote) (args : option Arguments) (p : string) (response : Response),
    promptIs args p ->
    (status response < 200 \/ 300 <= status response)%Z ->
    (In (spec_imageCall (imageLocals args) p)
        (fst (invoke remote {| name := "generate_image"; arguments := args |})) ->
     remote (fst (spec_imageCall (imageLocals args) p))
            (snd (spec_imageCall (imageLocals args) p)) = inr response ->
     invoke remote {| name := "generate_image"; arguments := args |} =
     ( [spec_imageCall (imageLocals args) p],
       inr (Failure ("Failed to generate image: " ++ statusText response)) ))
    /\
    (remote (fst (spec_textCall (textLocals args) p))
            (snd (spec_textCall (textLocals args) p)) = inr response ->
     invoke remote {| name := "generate_text"; arguments := args |} =
     ( [spec_textCall (textLocals args) p],
       inr (Failure ("Failed to generate text: " ++ statusText response)) )).
Proof.
  intros remote args p response Hp Hstatus.
  assert (Hok : ok response = false).
  { unfold ok. destruct Hstatus as [Hlow | Hhigh].
    - replace (200 <=? status response)%Z with false by (symmetry; apply Z.leb_gt; lia).
      reflexivity.
    - replace (status response <? 300)%Z with false by (symmetry; apply Z.ltb_ge; lia).
      apply andb_false_r. }
  split.
  - intros Hsent Hremote.
    destruct (hasLoneSurrogate p) eqn:Hwell.
    + rewrite (invoke_image_malformed remote args p Hp Hwell) in Hsent. destruct Hsent.
    + rewrite (invoke_generate_image remote args p Hp Hwell). cbv zeta.
      cbn [fst snd spec_imageCall] in Hremote. rewrite Hremote, Hok. reflexivity.
  - intros Hremote.
    rewrite (invoke_generate_text remote args p Hp). cbv zeta.
    rewrite Hremote, Hok. reflexivity.
Qed.

Lemma remote_error_status_witness :
  invoke (answering 404 "Not Found" "")
         {| name := "generate_image"; arguments := Some (promptOnly "x") |} =
  ( [ ("https://image.pollinations.ai/prompt/x?width=1024&height=1024&model=flux&nologo=true&enhance=false",
       {| method := "HEAD"; headers := []; body := None |}) ],
    inr (Failure "Failed to generate image: Not Found") )
  /\
  snd (invoke (answering 503 "Service Unavailable" "")
              {| name := "generate_text"; arguments := Some (promptOnly "x") |}) =
  inr (Failure "Failed to generate text: Service Unavailable").
Proof.
  assert (H : promptIs (Some (promptOnly "x")) "x")
    by (split; [reflexivity | discriminate]).
  split.
  - destruct (remote_error_status_fails (answering 404 "Not Found" "")
                (Some (promptOnly "x")) "x"
                {| status := 404; statusText := "Not Found"; text := inr "" |} H)
      as [Himage _].
    + right. cbn [status]. lia.
    + rewrite Himage.
      * vm_compute. reflexivity.
      * vm_compute. left. reflexivity.
      * reflexivity.
  - destruct (remote_error_status_fails (answering 503 "Service Unavailable" "")
                (Some (promptOnly "x")) "x"
                {| status := 503; statusText := "Service Unavailable"; text := inr "" |} H)
      as [_ Htext].
    + right. cbn [status]. lia.
    + rewrite (Htext eq_refl). reflexivity.
Defined.

(** C8. An optional argument that is absent is bound to its declared default
    before the request is built: width 1024, height 1024, model flux, nologo
    true and enhance false for images, model openai and temperature 0.7 for
    text; one that is present is kept. seed, max_tokens and system have no
    default, in the code as in the catalog, and stay as they were sent. With
    only a prompt, the defaults are what goes out (for an image, when the
    prompt can be encoded, that is, holds no lone surrogate). *)
Theorem declared_defaults_applied :
  forall (args : option Arguments) (remote : Remote) (p : string),
    let a := orEmpty args in
    let i := imageLocals args in
    let t := textLocals args in
    ( ImageLocals.width i = match arg_width a with Some w => w | None => 1024%float end
      /\ ImageLocals.height i = match arg_height a with Some h => h | None => 1024%float end
      /\ ImageLocals.model i = match arg_model a with Some m => m | None => "flux" end
      /\ ImageLocals.nologo i = match arg_nologo a with Some b => b | None => true end
      /\ ImageLocals.enhance i = match arg_enhance a with Some b => b | None => false end
      /\ TextLocals.model t = match arg_model a with Some m => m | None => "openai" end
      /\ TextLocals.temperature t =
           match arg_temperature a with Some x => x | None => 0.7%float end )
    /\ ( ImageLocals.seed i = arg_seed a
         /\ TextLocals.seed t = arg_seed a
         /\ TextLocals.max_tokens t = arg_max_tokens a
         /\ TextLocals.system t = arg_system a )
    /\ ( declaredDefault "generate_image" "width" = Some (JNumber 1024)
         /\ declaredDefault "generate_image" "height" = Some (JNumber 1024)
         /\ declaredDefault "generate_image" "model" = Some (JString "flux")
         /\ declaredDefault "generate_image" "nologo" = Some (JBool true)
         /\ declaredDefault "generate_image" "enhance" = Some (JBool false)
         /\ declaredDefault "generate_text" "model" = Some (JString "openai")
         /\ declaredDefault "generate_text" "temperature" = Some (JNumber 0.7)
         /\ declaredDefault "generate_image" "seed" = None
         /\ declaredDefault "generate_text" "seed" = None
         /\ declaredDefault "generate_text" "max_tokens" = None
         /\ declaredDefault "generate_text" "system" = None )
    /\ ( p <> "" ->
         (hasLoneSurrogate p = false ->
          fst (invoke remote {| name := "generate_image";
                                arguments := Some (promptOnly p) |}) =
            [ ( POLLINATIONS_IMAGE_API ++ "/" ++ percentEscape p
                  ++ "?width=1024&height=1024&model=flux&nologo=true&enhance=false",
                {| method := "HEAD"; headers := []; body := None |} ) ])
         /\ fst (invoke remote {| name := "generate_text";
                                  arguments := Some (promptOnly p) |}) =
           [ ( POLLINATIONS_TEXT_API,
               {| method := "POST";
                  headers := [("Content-Type", "application/json")];
                  body :=
                    Some (JSON.stringify
                            [ ("messages",
                                JArray [JObject [("role", JString "user");
                                                 ("content", JString p)]]);
                              ("model", JString "openai");
                              ("temperature", JNumber 0.7) ]
                            0) |} ) ] ).
Proof.
  intros args remote p a i t.
  split; [|split; [|split]].
  - subst i t. unfold imageLocals, textLocals, destructureImageArgs, destructureTextArgs.
    cbn [ImageLocals.width ImageLocals.height ImageLocals.model ImageLocals.nologo
         ImageLocals.enhance TextLocals.model TextLocals.temperature
         asGenerateImageArgs asGenerateTextArgs
         GenerateImageArgs.width GenerateImageArgs.height GenerateImageArgs.model
         GenerateImageArgs.nologo GenerateImageArgs.enhance
         GenerateTextArgs.model GenerateTextArgs.temperature].
    fold a. unfold orDefault. repeat split.
  - repeat split.
  - repeat split.
  - intros Hne.
    assert (Hp : promptIs (Some (promptOnly p)) p) by (split; [reflexivity | assumption]).
    split.
    + intros Hwell. rewrite (invoke_generate_image remote _ p Hp Hwell).
      cbv zeta. cbn [fst]. unfold spec_imageCall, spec_imageUrl.
      replace (spec_query (imageLocals (Some (promptOnly p))))
        with "width=1024&height=1024&model=flux&nologo=true&enhance=false"
        by (vm_compute; reflexivity).
      reflexivity.
    + rewrite (invoke_generate_text remote _ p Hp). reflexivity.
Qed.

Lemma declared_defaults_witness :
  fst (invoke (answering 200 "OK" "")
              {| name := "generate_image"; arguments := Some (promptOnly "a cat") |}) =
  [ ("https://image.pollinations.ai/prompt/a%20cat?width=1024&height=1024&model=flux&nologo=true&enhance=false",
     {| method := "HEAD"; headers := []; body := None |}) ]
  /\ ImageLocals.seed (imageLocals (Some (promptOnly "a cat"))) = None
  /\ TextLocals.temperature (textLocals None) = 0.7%float.
Proof.
  destruct (declared_defaults_applied (Some (promptOnly "a cat")) (answering 200 "OK" "")
              "a cat") as [_ [[Hseed _] [_ Hout]]].
  destruct (declared_defaults_applied None (answering 200 "OK" "") "a cat")
    as [[_ [_ [_ [_ [_ [_ Htemp]]]]]] _].
  split; [|split].
  - destruct Hout as [Himage _]; [discriminate|].
    rewrite (Himage eq_refl). vm_compute. reflexivity.
  - exact Hseed.
  - exact Htemp.
Defined.

(** C9. get_available_models sends nothing and returns a success with one
    text part: the JSON text of an object with the two lists image_models
    and text_models, in this order. The first has exactly 5 entries and the
    second exactly 7, each one a [{name, description}] object, with the names
    of the catalog's enumerations in the catalog's order and the fixed
    descriptions. *)
Theorem model_listing :
  forall (remote : Remote) (args : option Arguments),
    invoke remote {| name := "get_available_models"; arguments := args |} =
    ( [],
      inr (Success
             [ TextContent
                 (JSON.stringify
                    [ ("image_models", JArray image_models);
                      ("text_models", JArray text_models) ]
                    2) ]) )
    /\ length image_models = 5
    /\ length text_models = 7
    /\ image_models =
       map (fun nd => JObject [("name", JString (fst nd)); ("description", JString (snd nd))])
         [ ("flux", "High-quality general purpose image generation");
           ("flux-realism", "Photorealistic image generation");
           ("flux-anime", "Anime and manga style images");
           ("flux-3d", "3D rendered style images");
           ("turbo", "Fast image generation with good quality") ]
    /\ text_models =
       map (fun nd => JObject [("name", JString (fst nd)); ("description", JString (snd nd))])
         [ ("openai", "OpenAI GPT models (default)");
           ("mistral", "Mistral AI model");
           ("mistral-large", "Mistral Large model for complex tasks");
           ("claude-3.5-sonnet", "Anthropic Claude 3.5 Sonnet");
           ("llama-3.3-70b", "Meta Llama 3.3 70B");
           ("qwen-2.5-coder-32b", "Qwen 2.5 Coder 32B - specialized for coding");
           ("searchgpt", "Search-augmented generation model") ]
    /\ map entryName image_models = map Some image_model_enum
    /\ map entryName text_models = map Some text_model_enum.
Proof.
  intros remote args.
  split.
  - rewrite invoke_dispatch. reflexivity.
  - repeat split.
Qed.

(** C10 (amended). With a non-empty prompt nothing else is checked. For
    generate_text, whatever the model and the temperature are, in or out of
    the declared enumeration and range, the request goes out and carries
    them as they were given; a healthy remote then makes the call succeed;
    a generate_text call either misses its prompt and fails before any
    request, or sends its request. For generate_image the same holds when
    the prompt can be encoded: the request goes out and its query carries
    the model as given (form-urlencoded after the conversion to a
    USVString). A prompt that holds a lone surrogate makes
    [encodeURIComponent] throw: nothing is sent, and the result is the
    failure [URI malformed], whatever the other arguments are. *)
Theorem only_the_prompt_is_validated :
  forall (remote : Remote) (args : option Arguments) (p m : string) (x : float),
    promptIs args p ->
    arg_model (orEmpty args) = Some m ->
    arg_temperature (orEmpty args) = Some x ->
    let i := imageLocals args in
    let t := textLocals args in
    let textInit :=
      {| method := "POST";
         headers := [("Content-Type", "application/json")];
         body :=
           Some (JSON.stringify
                   ([ ("messages", JArray (spec_messages (arg_system (orEmpty args)) p));
                      ("model", JString m);
                      ("temperature", JNumber x) ]
                    ++ match arg_seed (orEmpty args) with
                       | Some seed => [("seed", JNumber seed)]
                       | None => []
                       end
                    ++ match arg_max_tokens (orEmpty args) with
                       | Some max_tokens => [("max_tokens", JNumber max_tokens)]
                       | None => []
                       end)%list
                   0) |} in
    (hasLoneSurrogate p = false ->
     fst (invoke remote {| name := "generate_image"; arguments := args |}) =
       [ ( POLLINATIONS_IMAGE_API ++ "/" ++ percentEscape p ++ "?"
           ++ "width="
           ++ URLSearchParams.serialize (toUSVString (Number.toString (ImageLocals.width i)))
           ++ "&height="
           ++ URLSearchParams.serialize (toUSVString (Number.toString (ImageLocals.height i)))
           ++ "&model=" ++ URLSearchParams.serialize (toUSVString m)
           ++ "&nologo=" ++ Boolean_toString (ImageLocals.nologo i)
           ++ "&enhance=" ++ Boolean_toString (ImageLocals.enhance i)
           ++ match arg_seed (orEmpty args) with
              | Some seed =>
                  "&seed=" ++ URLSearchParams.serialize (toUSVString (Number.toString seed))
              | None => ""
              end,
           {| method := "HEAD"; headers := []; body := None |} ) ])
    /\ (hasLoneSurrogate p = true ->
        invoke remote {| name := "generate_image"; arguments := args |} =
        ([], inr (Failure "URI malformed")))
    /\ fst (invoke remote {| name := "generate_text"; arguments := args |}) =
         [ (POLLINATIONS_TEXT_API, textInit) ]
    /\ (forall response raw,
          remote POLLINATIONS_TEXT_API textInit = inr response ->
          ok response = true ->
          text response = inr raw ->
          exists payload,
            snd (invoke remote {| name := "generate_text"; arguments := args |}) =
            inr (Success [TextContent payload]))
    /\ (forall (args' : option Arguments),
          invoke remote {| name := "generate_text"; arguments := args' |} =
            ([], inr (Failure "Prompt is required"))
          \/ exists call,
               fst (invoke remote {| name := "generate_text"; arguments := args' |}) =
               [call]).
Proof.
  intros remote args p m x Hp Hm Hx i t textInit.
  assert (Himodel : ImageLocals.model i = m).
  { subst i. unfold imageLocals, destructureImageArgs.
    cbn [ImageLocals.model asGenerateImageArgs GenerateImageArgs.model].
    now rewrite Hm. }
  assert (Htmodel : TextLocals.model t = m).
  { subst t. unfold textLocals, destructureTextArgs.
    cbn [TextLocals.model asGenerateTextArgs GenerateTextArgs.model].
    now rewrite Hm. }
  assert (Htemp : TextLocals.temperature t = x).
  { subst t. unfold textLocals, destructureTextArgs.
    cbn [TextLocals.temperature asGenerateTextArgs GenerateTextArgs.temperature].
    now rewrite Hx. }
  assert (Hcall : spec_textCall t p = (POLLINATIONS_TEXT_API, textInit)).
  { unfold spec_textCall, spec_textBody, textInit. rewrite Htmodel, Htemp. reflexivity. }
  split; [|split; [|split; [|split]]].
  - intros Hwell.
    rewrite (invoke_generate_image remote args p Hp Hwell). cbv zeta. cbn [fst].
    fold i. unfold spec_imageCall, spec_imageUrl, spec_query. rewrite Himodel. reflexivity.
  - intros Hbad. exact (invoke_image_malformed remote args p Hp Hbad).
  - rewrite (invoke_generate_text remote args p Hp). cbv zeta. cbn [fst].
    fold t. now rewrite Hcall.
  - intros response raw Hremote Hok Hraw.
    rewrite (invoke_generate_text remote args p Hp). cbv zeta.
    fold t. rewrite Hcall. cbn [fst snd]. rewrite Hremote, Hok, Hraw.
    eexists. reflexivity.
  - intros args'.
    destruct (prompt_cases args') as [Hmissing | [p' Hp']].
    + left. apply invoke_missing_prompt; auto.
    + right. rewrite (invoke_generate_text remote args' p' Hp'). eexists. reflexivity.
Qed.

Lemma only_the_prompt_witness :
  ~ In "gpt-99" image_model_enum
  /\ ~ In "gpt-99" text_model_enum
  /\ (2 <? 3.5)%float = true
  /\ fst (invoke (answering 200 "OK" "fine")
                 {| name := "generate_image"; arguments := Some undeclaredArguments |}) =
     [ ("https://image.pollinations.ai/prompt/x?width=1024&height=1024&model=gpt-99&nologo=true&enhance=false",
        {| method := "HEAD"; headers := []; body := None |}) ]
  /\ fst (invoke (answering 200 "OK" "fine")
                 {| name := "generate_text"; arguments := Some undeclaredArguments |}) =
     [ (POLLINATIONS_TEXT_API,
        {| method := "POST";
           headers := [("Content-Type", "application/json")];
           body :=
             Some (JSON.stringify
                     [ ("messages",
                         JArray [JObject [("role", JString "user");
                                          ("content", JString "x")]]);
                       ("model", JString "gpt-99");
                       ("temperature", JNumber 3.5) ]
                     0) |}) ].
Proof.
  assert (H : promptIs (Some undeclaredArguments) "x")
    by (split; [reflexivity | discriminate]).
  destruct (only_the_prompt_is_validated (answering 200 "OK" "fine")
              (Some undeclaredArguments) "x" "gpt-99" 3.5%float H eq_refl eq_refl)
    as [Himage [_ [Htext _]]].
  split; [|split; [|split; [|split]]].
  - cbn. intros [E | [E | [E | [E | [E | []]]]]]; discriminate E.
  - cbn. intros [E | [E | [E | [E | [E | [E | [E | []]]]]]]]; discriminate E.
  - reflexivity.
  - rewrite (Himage eq_refl). vm_compute. reflexivity.
  - rewrite Htext. reflexivity.
Defined.

(** The claim as it was stated has every call with a non-empty prompt carry
    its model into the outbound request, and the prompt presence check as
    the only thing that stops a call. With the prompt that is one lone
    surrogate, a model outside the enumeration and a temperature above the
    range, the image call sends no request: it fails, and not for a missing
    prompt. *)
Lemma only_the_prompt_counterexample :
  promptIs (Some malformedArguments) loneSurrogate
  /\ arg_model (orEmpty (Some malformedArguments)) = Some "gpt-99"
  /\ invoke (answering 200 "OK" "fine")
            {| name := "generate_image"; arguments := Some malformedArguments |} =
     ([], inr (Failure "URI malformed"))
  /\ Failure "URI malformed" <> Failure "Prompt is required".
Proof.
  split; [split; [reflexivity | discriminate]|].
  split; [reflexivity|].
  split; [reflexivity|].
  vm_compute. discriminate.
Qed.

(* ================================================================= *)
(** * Further facts and runs *)

(** The handler returns from any call log, not only from the empty one. *)
Lemma callTool_never_throws (request : CallToolRequest) remote log :
  exists log' result, callTool request remote log = (log', inr result).
Proof.
  unfold callTool. apply tryCatch_returns.
  intros e log'. eexists. eexists. reflexivity.
Qed.

(** When no seed was supplied, the payload of a generated image has no seed
    member: its text is the one of the object without it. *)
Lemma undefined_seed_not_printed (l : ImageLocals.t) (p imageUrl : string) :
  ImageLocals.seed l = None ->
  JSON.stringify (spec_imagePayload l p imageUrl) 2 =
  JSON.stringify
    [ ("success", JBool true);
      ("imageUrl", JString imageUrl);
      ("prompt", JString p);
      ("width", JNumber (ImageLocals.width l));
      ("height", JNumber (ImageLocals.height l));
      ("model", JString (ImageLocals.model l));
      ("message",
        JString "Image generated successfully! Use the imageUrl to display or download the image.") ]
    2.
Proof.
  intros Hseed. unfold spec_imagePayload. rewrite Hseed.
  exact (stringify_drops_undefined
           [ ("success", JBool true);
             ("imageUrl", JString imageUrl);
             ("prompt", JString p);
             ("width", JNumber (ImageLocals.width l));
             ("height", JNumber (ImageLocals.height l));
             ("model", JString (ImageLocals.model l)) ]
           [ ("message",
               JString "Image generated successfully! Use the imageUrl to display or download the image.") ]
           "seed" 2).
Qed.

(** The same for the payload of a generated text. *)
Lemma undefined_text_seed_not_printed (l : TextLocals.t) (p raw : string) :
  TextLocals.seed l = None ->
  JSON.stringify (spec_textPayload l p raw) 2 =
  JSON.stringify
    [ ("success", JBool true);
      ("response", JString raw);
      ("model", JString (TextLocals.model l));
      ("prompt", JString p);
      ("temperature", JNumber (TextLocals.temperature l)) ]
    2.
Proof.
  intros Hseed. unfold spec_textPayload. rewrite Hseed.
  exact (stringify_drops_undefined
           [ ("success", JBool true);
             ("response", JString raw);
             ("model", JString (TextLocals.model l));
             ("prompt", JString p) ]
           [ ("temperature", JNumber (TextLocals.temperature l)) ]
           "seed" 2).
Qed.

(** A value that is not finite is printed [null] in a request body. *)
Lemma infinite_number_printed_null gap indent :
  JSON.serialize gap indent (JNumber infinity) = Some "null".
Proof. reflexivity. Qed.

(** The catalog has the three tools, in this order. *)
Example listTools_names :
  map Schema.name listTools = ["generate_image"; "generate_text"; "get_available_models"].
Proof. reflexivity. Qed.

Example toString_samples :
  map Number.toString [1024; 0.7; 1.5; 512; 42; -3; 0.1 + 0.2; 1e21; 1e-7]%float =
  ["1024"; "0.7"; "1.5"; "512"; "42"; "-3"; "0.30000000000000004"; "1e+21"; "1e-7"].
Proof. vm_compute. reflexivity. Qed.

Example percentEscape_sample :
  percentEscape "a cat/?&=+#" = "a%20cat%2F%3F%26%3D%2B%23".
Proof. vm_compute. reflexivity. Qed.

(** A lone surrogate: [encodeURIComponent] throws, [URLSearchParams] writes
    U+FFFD in its place, [JSON.stringify] writes its escape. *)
Example encodeURIComponent_lone_surrogate :
  encodeURIComponent ("a" ++ loneSurrogate) = inl (JsError "URI malformed").
Proof. reflexivity. Qed.

Example searchParams_lone_surrogate :
  URLSearchParams.toString (URLSearchParams.new [("model", "a" ++ loneSurrogate)]) =
  "model=a%EF%BF%BD".
Proof. vm_compute. reflexivity. Qed.

Example quote_lone_surrogate :
  JSON.quote ("a" ++ loneSurrogate) = DQUOTE ++ "a\ud800" ++ DQUOTE.
Proof. vm_compute. reflexivity. Qed.

(** A rejected call whose reason is an [Error] gives its message. *)
Example transport_fault_with_message :
  snd (invoke (rejecting (JsError "socket hang up"))
              {| name := "generate_text"; arguments := Some (promptOnly "x") |}) =
  inr (Failure "socket hang up").
Proof. reflexivity. Qed.

(** A rejected call whose reason is not an [Error] gives the fallback. *)
Example transport_fault_without_message :
  snd (invoke (rejecting NotAnError)
              {| name := "generate_image"; arguments := Some (promptOnly "x") |}) =
  inr (Failure "Unknown error occurred").
Proof. reflexivity. Qed.

(** An [Error] built with an empty message keeps it: the fallback is for
    values that are not errors. *)
Example transport_fault_with_empty_message :
  snd (invoke (rejecting (JsError ""))
              {| name := "generate_image"; arguments := Some (promptOnly "x") |}) =
  inr (Failure "").
Proof. reflexivity. Qed.

(** An empty system message is not sent. *)
Example empty_system_message_is_dropped :
  spec_messages (Some "") "hello" = spec_messages None "hello".
Proof. reflexivity. Qed.

(* ================================================================= *)
(** * The paths through the handler *)

(** Every invocation ends on one of the paths. *)
Lemma invoke_outcome remote request :
  exists calls result,
    invoke remote request = (calls, inr result) /\ Outcome remote request calls result.
Proof.
  destruct request as [tool args].
  destruct (String.eqb_spec tool "generate_image") as [-> | Himage].
  - set (request := {| name := "generate_image"; arguments := args |}).
    destruct (prompt_cases args) as [Hmissing | [p Hp]].
    + exists [], (Failure "Prompt is required"). split.
      * apply invoke_missing_prompt; auto.
      * exact (PromptRequired remote request (or_introl eq_refl) Hmissing).
    + destruct (hasLoneSurrogate p) eqn:Hwell.
      * exists [], (Failure "URI malformed"). split.
        -- exact (invoke_image_malformed remote args p Hp Hwell).
        -- exact (ImageMalformed remote request p eq_refl Hp Hwell).
      * subst request. rewrite (invoke_generate_image remote args p Hp Hwell). cbv zeta.
        set (request := {| name := "generate_image"; arguments := args |}).
        destruct (remote _ _) as [e | response] eqn:Hremote.
        -- eexists. eexists. split; [reflexivity|].
           exact (ImageRejected remote request p e eq_refl Hp Hwell Hremote).
        -- destruct (ok response) eqn:Hok.
           ++ eexists. eexists. split; [reflexivity|].
              exact (ImageGenerated remote request p response eq_refl Hp Hwell Hremote Hok).
           ++ eexists. eexists. split; [reflexivity|].
              exact (ImageRefused remote request p response eq_refl Hp Hwell Hremote Hok).
  - destruct (String.eqb_spec tool "generate_text") as [-> | Htext].
    + set (request := {| name := "generate_text"; arguments := args |}).
      destruct (prompt_cases args) as [Hmissing | [p Hp]].
      * exists [], (Failure "Prompt is required"). split.
        -- apply invoke_missing_prompt; auto.
        -- exact (PromptRequired remote request (or_intror eq_refl) Hmissing).
      * subst request. rewrite (invoke_generate_text remote args p Hp). cbv zeta.
        set (request := {| name := "generate_text"; arguments := args |}).
        destruct (remote _ _) as [e | response] eqn:Hremote.
        -- eexists. eexists. split; [reflexivity|].
           exact (TextRejected remote request p e eq_refl Hp Hremote).
        -- destruct (ok response) eqn:Hok.
           ++ destruct (text response) as [e | raw] eqn:Hraw.
              ** eexists. eexists. split; [reflexivity|].
                 exact (TextUnreadable remote request p response e eq_refl Hp Hremote Hok Hraw).
              ** eexists. eexists. split; [reflexivity|].
                 exact (TextGenerated remote request p response raw eq_refl Hp Hremote Hok Hraw).
           ++ eexists. eexists. split; [reflexivity|].
              exact (TextRefused remote request p response eq_refl Hp Hremote Hok).
    + destruct (String.eqb_spec tool "get_available_models") as [-> | Hmodels].
      * eexists. eexists. split.
        -- rewrite invoke_dispatch. reflexivity.
        -- exact (ModelsListed remote
                    {| name := "get_available_models"; arguments := args |} eq_refl).
      * eexists. eexists. split.
        -- rewrite invoke_dispatch, dispatch_unknown by assumption. reflexivity.
        -- exact (UnknownTool remote {| name := tool; arguments := args |}
                    Himage Htext Hmodels).
Qed.

(** And a path is what the handler does: the relation and the function agree. *)
Lemma outcome_invoke remote request calls result :
  Outcome remote request calls result ->
  invoke remote request = (calls, inr result).
Proof.
  destruct request as [tool args].
  intros [H1 H2 H3 | Hname | Htool Hmissing
         | p Hname Hp Hbad
         | p e Hname Hp Hwell Hremote | p response Hname Hp Hwell Hremote Hok
         | p response Hname Hp Hwell Hremote Hok
         | p e Hname Hp Hremote | p response Hname Hp Hremote Hok
         | p response e Hname Hp Hremote Hok Hraw
         | p response raw Hname Hp Hremote Hok Hraw];
    cbn [name arguments] in *; try subst tool.
  - rewrite invoke_dispatch, dispatch_unknown by assumption. reflexivity.
  - rewrite invoke_dispatch. reflexivity.
  - now apply invoke_missing_prompt.
  - exact (invoke_image_malformed remote args p Hp Hbad).
  - rewrite (invoke_generate_image remote args p Hp Hwell). cbv zeta.
    unfold headInit in Hremote. rewrite Hremote. reflexivity.
  - rewrite (invoke_generate_image remote args p Hp Hwell). cbv zeta.
    unfold headInit in Hremote. rewrite Hremote, Hok. reflexivity.
  - rewrite (invoke_generate_image remote args p Hp Hwell). cbv zeta.
    unfold headInit in Hremote. rewrite Hremote, Hok. reflexivity.
  - rewrite (invoke_generate_text remote args p Hp). cbv zeta.
    rewrite Hremote. reflexivity.
  - rewrite (invoke_generate_text remote args p Hp). cbv zeta.
    rewrite Hremote, Hok. reflexivity.
  - rewrite (invoke_generate_text remote args p Hp). cbv zeta.
    rewrite Hremote, Hok, Hraw. reflexivity.
  - rewrite (invoke_generate_text remote args p Hp). cbv zeta.
    rewrite Hremote, Hok, Hraw. reflexivity.
Qed.

(* ================================================================= *)
(** * Further properties of the handler *)

Lemma failure_is_flagged (message : string) : isError (Failure message) = Some true.
Proof. reflexivity. Qed.

Lemma success_is_not_flagged (parts : list ContentPart) : isError (Success parts) = None.
Proof. reflexivity. Qed.

Lemma in_catalog (tool : string) :
  In tool (map Schema.name listTools) <->
  tool = "generate_image" \/ tool = "generate_text" \/ tool = "get_available_models".
Proof.
  cbn. split.
  - intros [H | [H | [H | []]]]; auto.
  - intros [H | [H | H]]; auto.
Qed.

(** X1. The switch knows exactly the tools of the catalog: a call fails as
    an unknown tool, before any request, if and only if its name is not the
    name of a catalog entry. *)
Theorem unknown_tool_exactly_outside_catalog :
  forall (remote : Remote) (request : CallToolRequest),
    invoke remote request = ([], inr (Failure ("Unknown tool: " ++ name request)))
    <-> ~ In (name request) (map Schema.name listTools).
Proof.
  intros remote request. rewrite in_catalog. split.
  - intros Hinvoke Hknown.
    destruct (invoke_outcome remote request) as [calls [result [Hrun Hpath]]].
    rewrite Hinvoke in Hrun. injection Hrun as <- <-. clear Hinvoke.
    inversion Hpath as [H1 H2 H3 | | | | | | | | | | ].
    destruct Hknown as [H | [H | H]]; contradiction.
  - intros Hunknown. apply outcome_invoke. apply UnknownTool; intros H; apply Hunknown; auto.
Qed.

Lemma maybe_injective {A} (inj : A -> json) (a b : option A) :
  (forall x y, inj x = inj y -> x = y) ->
  (forall x, inj x <> JUndefined) ->
  maybe inj a = maybe inj b -> a = b.
Proof.
  intros Hinj Hdef. destruct a as [x|], b as [y|]; simpl; intros H.
  - f_equal. now apply Hinj.
  - now apply Hdef in H.
  - symmetry in H. now apply Hdef in H.
  - reflexivity.
Qed.

Lemma maybe_JString_injective (a b : option string) :
  maybe JString a = maybe JString b -> a = b.
Proof. apply maybe_injective; [now intros x y [= ->] | discriminate]. Qed.

Lemma maybe_JNumber_injective (a b : option float) :
  maybe JNumber a = maybe JNumber b -> a = b.
Proof. apply maybe_injective; [now intros x y [= ->] | discriminate]. Qed.

Lemma maybe_JBool_injective (a b : option bool) :
  maybe JBool a = maybe JBool b -> a = b.
Proof. apply maybe_injective; [now intros x y [= ->] | discriminate]. Qed.

Lemma image_case_reads_its_interface (args1 args2 : option Arguments) :
  asGenerateImageArgs (orEmpty args1) = asGenerateImageArgs (orEmpty args2) ->
  case_generate_image args1 = case_generate_image args2.
Proof. intros H. unfold case_generate_image. now rewrite H. Qed.

Lemma text_case_reads_its_interface (args1 args2 : option Arguments) :
  asGenerateTextArgs (orEmpty args1) = asGenerateTextArgs (orEmpty args2) ->
  case_generate_text args1 = case_generate_text args2.
Proof. intros H. unfold case_generate_text. now rewrite H. Qed.

(** X2. The handler reads no argument that the catalog does not declare for
    the tool: two calls of one tool whose argument objects agree on the
    declared properties get the same result and make the same requests. *)
Theorem undeclared_arguments_are_ignored :
  forall (remote : Remote) (tool : string) (args1 args2 : option Arguments),
    (forall key, In key (declaredKeys tool) ->
                 argument (orEmpty args1) key = argument (orEmpty args2) key) ->
    invoke remote {| name := tool; arguments := args1 |} =
    invoke remote {| name := tool; arguments := args2 |}.
Proof.
  intros remote tool args1 args2 Hagree.
  rewrite !invoke_dispatch.
  destruct (String.eqb_spec tool "generate_image") as [-> | Himage].
  - change (dispatch {| name := "generate_image"; arguments := args1 |})
      with (case_generate_image args1).
    change (dispatch {| name := "generate_image"; arguments := args2 |})
      with (case_generate_image args2).
    rewrite (image_case_reads_its_interface args1 args2); [reflexivity|].
    unfold asGenerateImageArgs. f_equal.
    + apply maybe_JString_injective, (Hagree "prompt"). cbn. auto.
    + apply maybe_JNumber_injective, (Hagree "width"). cbn. auto.
    + apply maybe_JNumber_injective, (Hagree "height"). cbn. auto.
    + apply maybe_JNumber_injective, (Hagree "seed"). cbn. auto.
    + apply maybe_JString_injective, (Hagree "model"). cbn. auto 6.
    + apply maybe_JBool_injective, (Hagree "nologo"). cbn. auto 7.
    + apply maybe_JBool_injective, (Hagree "enhance"). cbn. auto 8.
  - destruct (String.eqb_spec tool "generate_text") as [-> | Htext].
    + change (dispatch {| name := "generate_text"; arguments := args1 |})
        with (case_generate_text args1).
      change (dispatch {| name := "generate_text"; arguments := args2 |})
        with (case_generate_text args2).
      rewrite (text_case_reads_its_interface args1 args2); [reflexivity|].
      unfold asGenerateTextArgs. f_equal.
      * apply maybe_JString_injective, (Hagree "prompt"). cbn. auto.
      * apply maybe_JString_injective, (Hagree "model"). cbn. auto.
      * apply maybe_JNumber_injective, (Hagree "seed"). cbn. auto.
      * apply maybe_JNumber_injective, (Hagree "temperature"). cbn. auto.
      * apply maybe_JNumber_injective, (Hagree "max_tokens"). cbn. auto 6.
      * apply maybe_JString_injective, (Hagree "system"). cbn. auto 7.
    + unfold dispatch. cbn [name arguments].
      apply String.eqb_neq in Himage, Htext. rewrite Himage, Htext.
      reflexivity.
Qed.

Lemma undeclared_arguments_witness :
  invoke (answering 200 "OK" "")
         {| name := "generate_image"; arguments := Some undeclaredArguments |} =
  invoke (answering 200 "OK" "")
         {| name := "generate_image";
            arguments :=
              Some {| arg_prompt := Some "x"; arg_width := None; arg_height := None;
                      arg_seed := None; arg_model := Some "gpt-99"; arg_nologo := None;
                      arg_enhance := None; arg_temperature := None;
                      arg_max_tokens := Some 5%float; arg_system := Some "terse" |} |}.
Proof.
  apply undeclared_arguments_are_ignored.
  intros key Hkey. cbn in Hkey.
  destruct Hkey as [<- | [<- | [<- | [<- | [<- | [<- | [<- | []]]]]]]]; reflexivity.
Defined.

Lemma promptIs_unique (args : option Arguments) (p q : string) :
  promptIs args p -> promptIs args q -> p = q.
Proof. intros [Hp _] [Hq _]. congruence. Qed.

Lemma promptMissing_not_promptIs (args : option Arguments) (p : string) :
  promptMissing args -> promptIs args p -> False.
Proof.
  intros [Hnone | Hempty] [Hp Hne].
  - congruence.
  - rewrite Hp in Hempty. injection Hempty as ->. now apply Hne.
Qed.

(** X3. An invocation makes at most one outbound request. When it makes
    one, the call was a generate_image or a generate_text call with a
    non-empty prompt. A call without a prompt makes none; a generate_text
    call with a non-empty prompt makes one; a generate_image call whose
    prompt holds a lone surrogate makes none. *)
Theorem at_most_one_request :
  forall (remote : Remote) (request : CallToolRequest),
    length (fst (invoke remote request)) <= 1
    /\ (fst (invoke remote request) <> [] ->
        (name request = "generate_image" \/ name request = "generate_text")
        /\ exists p, promptIs (arguments request) p)
    /\ (promptMissing (arguments request) -> fst (invoke remote request) = [])
    /\ (forall p,
          name request = "generate_text" ->
          promptIs (arguments request) p ->
          length (fst (invoke remote request)) = 1)
    /\ (forall p,
          name request = "generate_image" ->
          promptIs (arguments request) p ->
          hasLoneSurrogate p = true ->
          fst (invoke remote request) = []).
Proof.
  intros remote request.
  destruct (invoke_outcome remote request) as [calls [result [Hrun Hpath]]].
  rewrite Hrun. cbn [fst].
  destruct Hpath as [H1 H2 H3 | Hname | Htool Hmissing
                    | p Hname Hp Hbad
                    | p e Hname Hp Hwell _ | p response Hname Hp Hwell _ _
                    | p response Hname Hp Hwell _ _
                    | p e Hname Hp _ | p response Hname Hp _ _
                    | p response e Hname Hp _ _ _ | p response raw Hname Hp _ _ _];
    (split; [cbn; lia|]);
    (split; [first [ intros Hsent; now elim Hsent
                   | intros _; split; [auto | now exists p] ] |]);
    (split; [first [ reflexivity
                   | intros Hmissing';
                     elim (promptMissing_not_promptIs _ p Hmissing' Hp) ] |]);
    (split; [intros q Hq Hpq | intros q Hq Hpq Hlone]);
    try reflexivity; try congruence;
    try (destruct Htool; elim (promptMissing_not_promptIs _ q Hmissing Hpq));
    try (rewrite (promptIs_unique _ q p Hpq Hp) in Hlone; congruence).
Qed.

(** ** The outbound URL *)

Lemma prefix_app (s t : string) : prefix s (s ++ t) = true.
Proof.
  induction s as [|c s IH]; simpl.
  - now destruct t.
  - destruct (ascii_dec c c) as [_ | Hc]; [exact IH | now elim Hc].
Qed.

Lemma everyChar_weaken (p q : ascii -> bool) (s : string) :
  (forall c, p c = true -> q c = true) ->
  everyChar p s = true -> everyChar q s = true.
Proof.
  intros Hpq. induction s as [|c s IH]; simpl.
  - reflexivity.
  - intros H. apply andb_true_iff in H as [Hc Hs].
    now rewrite (Hpq c Hc), (IH Hs).
Qed.

Lemma segmentChar_urlChar (c : ascii) : segmentChar c = true -> urlChar c = true.
Proof.
  destruct c as [[] [] [] [] [] [] [] []]; vm_compute; intros H;
    first [reflexivity | discriminate H].
Qed.

Lemma serializeByte_urlChar (c : ascii) :
  everyChar urlChar (URLSearchParams.serializeByte c) = true.
Proof. destruct c as [[] [] [] [] [] [] [] []]; vm_compute; reflexivity. Qed.

Lemma serialize_urlChar (s : string) : everyChar urlChar (URLSearchParams.serialize s) = true.
Proof. apply everyChar_concatMap, serializeByte_urlChar. Qed.

Lemma spec_imageUrl_urlChar (l : ImageLocals.t) (p : string) :
  everyChar urlChar (spec_imageUrl l p) = true.
Proof.
  unfold spec_imageUrl, spec_query.
  rewrite !everyChar_app, !serialize_urlChar.
  rewrite (everyChar_weaken _ _ _ segmentChar_urlChar (percentEscape_segment p)).
  destruct (ImageLocals.nologo l), (ImageLocals.enhance l), (ImageLocals.seed l);
    rewrite ?everyChar_app, ?serialize_urlChar; reflexivity.
Qed.

(** A generate_image call that sent a request had a non-empty prompt that
    could be encoded, and the request is the one built from it. *)
Lemma image_request_sent (remote : Remote) (args : option Arguments)
      (url : string) (init : RequestInit) :
  In (url, init)
     (fst (invoke remote {| name := "generate_image"; arguments := args |})) ->
  exists p,
    promptIs args p /\ hasLoneSurrogate p = false
    /\ (url, init) = spec_imageCall (imageLocals args) p.
Proof.
  destruct (prompt_cases args) as [Hmissing | [p Hp]].
  - rewrite invoke_missing_prompt by auto. intros [].
  - destruct (hasLoneSurrogate p) eqn:Hwell.
    + rewrite (invoke_image_malformed remote args p Hp Hwell). intros [].
    + rewrite (invoke_generate_image remote args p Hp Hwell). cbv zeta. cbn [fst].
      intros [E | []]. exists p. auto.
Qed.

(** X4. Requests only go to the two fixed endpoints. A generate_image call
    sends a bare HEAD (no header, no body) to a URL under the image
    endpoint; a generate_text call sends a POST with a body and the JSON
    content type to the text endpoint itself; no other tool sends anything. *)
Theorem requests_go_to_the_fixed_endpoints :
  forall (remote : Remote) (request : CallToolRequest) (url : string) (init : RequestInit),
    In (url, init) (fst (invoke remote request)) ->
    (name request = "generate_image"
     /\ prefix (POLLINATIONS_IMAGE_API ++ "/") url = true
     /\ init = {| method := "HEAD"; headers := []; body := None |})
    \/ (name request = "generate_text"
        /\ url = POLLINATIONS_TEXT_API
        /\ method init = "POST"
        /\ headers init = [("Content-Type", "application/json")]
        /\ exists payload, body init = Some payload).
Proof.
  intros remote request url init.
  destruct (invoke_outcome remote request) as [calls [result [Hrun Hpath]]].
  rewrite Hrun. cbn [fst].
  assert (Himage : forall l p, In (url, init) [spec_imageCall l p] ->
                   prefix (POLLINATIONS_IMAGE_API ++ "/") url = true
                   /\ init = {| method := "HEAD"; headers := []; body := None |}).
  { intros l p [[= <- <-] | []]. split; [|reflexivity].
    unfold spec_imageUrl. rewrite <- append_assoc. apply prefix_app. }
  assert (Htext : forall l p, In (url, init) [spec_textCall l p] ->
                  url = POLLINATIONS_TEXT_API
                  /\ method init = "POST"
                  /\ headers init = [("Content-Type", "application/json")]
                  /\ exists payload, body init = Some payload).
  { intros l p [[= <- <-] | []]. repeat split. eexists. reflexivity. }
  destruct Hpath; intros Hin;
    first [ contradiction
          | left; split; [assumption | eapply Himage; eassumption]
          | right; split; [assumption | eapply Htext; eassumption] ].
Qed.

Lemma fixed_endpoints_witness :
  prefix (POLLINATIONS_IMAGE_API ++ "/")
         "https://image.pollinations.ai/prompt/a%20cat?width=1024&height=1024&model=flux&nologo=true&enhance=false"
  = true.
Proof.
  destruct (requests_go_to_the_fixed_endpoints (answering 200 "OK" "")
              {| name := "generate_image"; arguments := Some (promptOnly "a cat") |}
              "https://image.pollinations.ai/prompt/a%20cat?width=1024&height=1024&model=flux&nologo=true&enhance=false"
              {| method := "HEAD"; headers := []; body := None |})
    as [[_ [Hprefix _]] | [Hname _]].
  - vm_compute. left. reflexivity.
  - exact Hprefix.
  - discriminate Hname.
Defined.

(** X5. Whatever the prompt, the model and the numbers hold, the URL of an
    image request is made of URL characters only: letters, digits and
    [-_.!~*'()%/?=&:+]. No space, quote, control character or byte above 127
    gets into it. *)
Theorem image_url_is_clean :
  forall (remote : Remote) (args : option Arguments) (url : string) (init : RequestInit),
    In (url, init)
       (fst (invoke remote {| name := "generate_image"; arguments := args |})) ->
    everyChar urlChar url = true.
Proof.
  intros remote args url init Hsent.
  destruct (image_request_sent remote args url init Hsent) as [p [_ [_ [= -> _]]]].
  apply spec_imageUrl_urlChar.
Qed.

Lemma image_url_is_clean_witness :
  everyChar urlChar
    "https://image.pollinations.ai/prompt/a%20cat?width=1024&height=1024&model=flux&nologo=true&enhance=false"
  = true.
Proof.
  apply (image_url_is_clean (answering 200 "OK" "") (Some (promptOnly "a cat")) _
           {| method := "HEAD"; headers := []; body := None |}).
  vm_compute. left. reflexivity.
Defined.

(** ** Reading the prompt back *)

Lemma percentDecode_chunk (c : ascii) (rest : string) :
  percentDecode ((if uriUnescaped c then String c "" else percentEncode c) ++ rest) =
  option_map (String c) (percentDecode rest).
Proof. destruct c as [[] [] [] [] [] [] [] []]; reflexivity. Qed.

(** Unescaping undoes [percentEscape]. *)
Lemma percentDecode_percentEscape (s : string) :
  percentDecode (percentEscape s) = Some s.
Proof.
  unfold percentEscape.
  induction s as [|c s IH].
  - reflexivity.
  - cbn [concatMap]. rewrite percentDecode_chunk, IH. reflexivity.
Qed.

Lemma dropChars_app (s t : string) : dropChars (String.length s) (s ++ t) = t.
Proof. induction s as [|c s IH]; simpl; [reflexivity | exact IH]. Qed.

Lemma upTo_app (c : ascii) (s t : string) :
  everyChar (isNot c) s = true -> upTo c (s ++ String c t) = s.
Proof.
  induction s as [|x s IH]; simpl.
  - intros _. now rewrite Ascii.eqb_refl.
  - unfold isNot at 1. intros H. apply andb_true_iff in H as [Hx Hs].
    apply negb_true_iff in Hx. rewrite Hx, (IH Hs). reflexivity.
Qed.

Lemma segmentChar_not_question (c : ascii) : segmentChar c = true -> isNot "?" c = true.
Proof.
  destruct c as [[] [] [] [] [] [] [] []]; vm_compute; intros H;
    first [reflexivity | discriminate H].
Qed.

(** The prompt of an image request can be read back from its URL. *)
Lemma promptOfImageUrl_spec (l : ImageLocals.t) (p : string) :
  promptOfImageUrl (spec_imageUrl l p) = Some p.
Proof.
  unfold promptOfImageUrl, spec_imageUrl.
  rewrite <- (append_assoc POLLINATIONS_IMAGE_API "/").
  rewrite prefix_app, dropChars_app.
  change ("?" ++ spec_query l) with (String "?" (spec_query l)).
  rewrite upTo_app.
  - apply percentDecode_percentEscape.
  - exact (everyChar_weaken _ _ _ segmentChar_not_question (percentEscape_segment p)).
Qed.

(** X6. The prompt is not lost or mixed up on its way into the URL: two
    generate_image calls that sent a request to the same URL had the same
    prompt, whatever their other arguments were and whatever was answered. *)
Theorem same_url_same_prompt :
  forall (remote1 remote2 : Remote) (args1 args2 : option Arguments)
         (url : string) (init1 init2 : RequestInit),
    In (url, init1)
       (fst (invoke remote1 {| name := "generate_image"; arguments := args1 |})) ->
    In (url, init2)
       (fst (invoke remote2 {| name := "generate_image"; arguments := args2 |})) ->
    exists p, promptIs args1 p /\ promptIs args2 p.
Proof.
  intros remote1 remote2 args1 args2 url init1 init2 Hsent1 Hsent2.
  destruct (image_request_sent remote1 args1 url init1 Hsent1) as [p1 [H1 [_ E1]]].
  destruct (image_request_sent remote2 args2 url init2 Hsent2) as [p2 [H2 [_ E2]]].
  unfold spec_imageCall in E1, E2. injection E1 as E1 _. injection E2 as E2 _.
  assert (E : Some p1 = Some p2).
  { rewrite <- (promptOfImageUrl_spec (imageLocals args1) p1),
            <- (promptOfImageUrl_spec (imageLocals args2) p2).
    congruence. }
  injection E as <-. now exists p1.
Qed.

Lemma same_url_same_prompt_witness :
  exists p, promptIs (Some undeclaredArguments) p /\ promptIs (Some promptAndModel) p.
Proof.
  apply (same_url_same_prompt (answering 200 "OK" "") (rejecting NotAnError)
           (Some undeclaredArguments) (Some promptAndModel)
           "https://image.pollinations.ai/prompt/x?width=1024&height=1024&model=gpt-99&nologo=true&enhance=false"
           {| method := "HEAD"; headers := []; body := None |}
           {| method := "HEAD"; headers := []; body := None |}).
  - vm_compute. left. reflexivity.
  - vm_compute. left. reflexivity.
Defined.

(** ** The shape of results *)

(** X7. Every result starts with a text part and has one or two parts; a
    second part is an image/jpeg part and only a generate_image call gets
    one. The error flag is either absent or true, never false, and a flagged
    result has the text part only. *)
Theorem result_shape :
  forall (remote : Remote) (request : CallToolRequest),
  exists calls result payload,
    invoke remote request = (calls, inr result) /\
    ( (isError result = Some true /\ content result = [TextContent payload])
      \/ (isError result = None /\ content result = [TextContent payload])
      \/ (isError result = None /\ name request = "generate_image" /\
          exists imageUrl,
            content result = [TextContent payload; ImageContent imageUrl "image/jpeg"]) ).
Proof.
  intros remote request.
  destruct (invoke_outcome remote request) as [calls [result [Hrun Hpath]]].
  exists calls, result.
  destruct Hpath; eexists; (split; [exact Hrun|]);
    first [ left; split; reflexivity
          | right; left; split; reflexivity
          | right; right; split; [reflexivity | split; [assumption | eexists; reflexivity]] ].
Qed.

(** X8. An image part is only handed back for a URL that was just checked:
    when a result holds an image part, the call was a generate_image call,
    its one request was a HEAD to that very URL, and the remote answered it
    with a success status. *)
Theorem image_part_was_checked :
  forall (remote : Remote) (request : CallToolRequest) (calls : list Call)
         (result : CallToolResult) (imageUrl mimeType : string),
    invoke remote request = (calls, inr result) ->
    In (ImageContent imageUrl mimeType) (content result) ->
    name request = "generate_image"
    /\ mimeType = "image/jpeg"
    /\ calls = [(imageUrl, {| method := "HEAD"; headers := []; body := None |})]
    /\ exists response,
         remote imageUrl {| method := "HEAD"; headers := []; body := None |} = inr response
         /\ ok response = true.
Proof.
  intros remote request calls result imageUrl mimeType Hrun Hin.
  destruct (invoke_outcome remote request) as [calls' [result' [Hrun' Hpath]]].
  rewrite Hrun in Hrun'. injection Hrun' as <- <-.
  destruct Hpath as [ | | | | | | p response Hname Hp Hwell Hremote Hok | | | | ];
    cbn [content Failure Success] in Hin;
    try (destruct Hin as [Hin | []]; discriminate Hin).
  destruct Hin as [Hin | [Hin | []]]; [discriminate Hin|].
  injection Hin as <- <-.
  repeat split; try assumption.
  exists response. split; assumption.
Qed.

Lemma image_part_was_checked_witness :
  exists response,
    answering 200 "OK" ""
      "https://image.pollinations.ai/prompt/a%20cat?width=1024&height=1024&model=flux&nologo=true&enhance=false"
      {| method := "HEAD"; headers := []; body := None |} = inr response
    /\ ok response = true.
Proof.
  destruct (invoke (answering 200 "OK" "")
              {| name := "generate_image"; arguments := Some (promptOnly "a cat") |})
    as [calls [e | result]] eqn:Hrun.
  - vm_compute in Hrun. discriminate Hrun.
  - refine (proj2 (proj2 (proj2
      (image_part_was_checked (answering 200 "OK" "")
         {| name := "generate_image"; arguments := Some (promptOnly "a cat") |}
         calls result
         "https://image.pollinations.ai/prompt/a%20cat?width=1024&height=1024&model=flux&nologo=true&enhance=false"
         "image/jpeg" Hrun _)))).
    vm_compute in Hrun. injection Hrun as _ <-. right. left. reflexivity.
Defined.

(** X9. A call succeeds (no error flag) exactly in three situations: it
    asked for the model list; or it asked for an image, its HEAD request
    was sent and the remote answered that request with a success status; or
    it asked for text, its POST was sent, the remote answered that request
    with a success status and the body could be read. *)
Theorem success_exactly_when :
  forall (remote : Remote) (request : CallToolRequest) (calls : list Call)
         (result : CallToolResult),
    invoke remote request = (calls, inr result) ->
    (isError result = None <->
     name request = "get_available_models"
     \/ (name request = "generate_image" /\
         exists url init response,
           calls = [(url, init)]
           /\ remote url init = inr response
           /\ ok response = true)
     \/ (name request = "generate_text" /\
         exists url init response raw,
           calls = [(url, init)]
           /\ remote url init = inr response
           /\ ok response = true
           /\ text response = inr raw)).
Proof.
  intros remote request calls result Hrun.
  destruct (invoke_outcome remote request) as [calls' [result' [Hrun' Hpath]]].
  rewrite Hrun in Hrun'. injection Hrun' as <- <-.
  destruct Hpath as [H1 H2 H3 | Hname | Htool Hmissing
                    | p Hname Hp Hbad
                    | p e Hname Hp Hwell Hremote | p response Hname Hp Hwell Hremote Hok
                    | p response Hname Hp Hwell Hremote Hok
                    | p e Hname Hp Hremote | p response Hname Hp Hremote Hok
                    | p response e Hname Hp Hremote Hok Hraw
                    | p response raw Hname Hp Hremote Hok Hraw];
    cbn [isError Failure Success]; unfold headInit, spec_imageCall in *;
    (split;
     [ try discriminate
     | intros [Hmodels
              | [[Himage [url [init [response' [Hsent [Hremote' Hok']]]]]]
                | [Htext [url [init [response' [raw' [Hsent [Hremote' [Hok' Hraw']]]]]]]]]];
       try reflexivity; exfalso ]);
    try congruence;
    try (destruct Htool as [Htool | Htool]; congruence);
    try discriminate Hsent;
    try (injection Hsent as <- <-; congruence);
    try (destruct (spec_textCall _ _) as [url' init'];
         injection Hsent as <- <-; cbn [fst snd] in *; congruence).
  - intros _. now left.
  - intros _. right. left. split; [assumption|]. do 3 eexists. eauto.
  - intros _. right. right. split; [assumption|].
    exists (fst (spec_textCall (textLocals (arguments request)) p)),
           (snd (spec_textCall (textLocals (arguments request)) p)), response, raw.
    rewrite <- surjective_pairing. auto.
Qed.

Lemma success_exactly_when_witness :
  exists calls result,
    invoke (answering 200 "OK" "")
           {| name := "generate_image"; arguments := Some (promptOnly "a cat") |} =
    (calls, inr result)
    /\ isError result = None.
Proof.
  destruct (invoke (answering 200 "OK" "")
              {| name := "generate_image"; arguments := Some (promptOnly "a cat") |})
    as [calls [e | result]] eqn:Hrun.
  - vm_compute in Hrun. discriminate Hrun.
  - exists calls, result. split; [reflexivity|].
    apply (proj2 (success_exactly_when _ _ _ _ Hrun)).
    right. left. split; [reflexivity|].
    exists "https://image.pollinations.ai/prompt/a%20cat?width=1024&height=1024&model=flux&nologo=true&enhance=false",
           {| method := "HEAD"; headers := []; body := None |},
           {| status := 200; statusText := "OK"; text := inr "" |}.
    split; [|split; reflexivity].
    vm_compute in Hrun. injection Hrun as <- _. reflexivity.
Defined.

(** X10. Once its request has been sent, a call can fail in these ways and
    in no other. The remote answered the request with a status outside
    200-299: the message is the status text of that answer behind the fixed
    prefix of the tool. Or the request was rejected, or (for generate_text)
    the body of the answer could not be read: the message is the message of
    what was thrown, the fallback when that was not an error. *)
Theorem failure_messages :
  forall (remote : Remote) (request : CallToolRequest) (calls : list Call)
         (result : CallToolResult) (url : string) (init : RequestInit),
    invoke remote request = (calls, inr result) ->
    In (url, init) calls ->
    isError result = Some true ->
    exists message,
      result = Failure message /\
      ( (exists response,
           remote url init = inr response /\ ok response = false /\
           ( (name request = "generate_image" /\
              message = "Failed to generate image: " ++ statusText response)
             \/ (name request = "generate_text" /\
                 message = "Failed to generate text: " ++ statusText response) ))
        \/ (exists e, remote url init = inl e /\ message = errorMessageOf e)
        \/ (exists response e,
              name request = "generate_text"
              /\ remote url init = inr response /\ ok response = true
              /\ text response = inl e /\ message = errorMessageOf e) ).
Proof.
  intros remote request calls result url init Hrun Hsent Hflag.
  destruct (invoke_outcome remote request) as [calls' [result' [Hrun' Hpath]]].
  rewrite Hrun in Hrun'. injection Hrun' as <- <-.
  destruct Hpath as [H1 H2 H3 | Hname | Htool Hmissing
                    | p Hname Hp Hbad
                    | p e Hname Hp Hwell Hremote | p response Hname Hp Hwell Hremote Hok
                    | p response Hname Hp Hwell Hremote Hok
                    | p e Hname Hp Hremote | p response Hname Hp Hremote Hok
                    | p response e Hname Hp Hremote Hok Hraw
                    | p response raw Hname Hp Hremote Hok Hraw];
    cbn [isError Success] in Hflag; try discriminate Hflag;
    try (exfalso; exact Hsent);
    unfold headInit, spec_imageCall in *;
    try (destruct (spec_textCall _ _) as [url' init']; cbn [fst snd] in Hremote);
    destruct Hsent as [[= <- <-] | []];
    eexists; (split; [reflexivity|]).
  - right; left. eauto.
  - left. exists response. auto.
  - right; left. eauto.
  - left. exists response. auto.
  - right; right. exists response, e. auto.
Qed.

Lemma failure_messages_witness :
  exists message,
    Failure "Failed to generate image: Not Found" = Failure message /\
    ( (exists response,
         answering 404 "Not Found" ""
           "https://image.pollinations.ai/prompt/x?width=1024&height=1024&model=flux&nologo=true&enhance=false"
           {| method := "HEAD"; headers := []; body := None |} = inr response
         /\ ok response = false /\
         ( ("generate_image" = "generate_image" /\
            message = "Failed to generate image: " ++ statusText response)
           \/ ("generate_image" = "generate_text" /\
               message = "Failed to generate text: " ++ statusText response) ))
      \/ (exists e,
            answering 404 "Not Found" ""
              "https://image.pollinations.ai/prompt/x?width=1024&height=1024&model=flux&nologo=true&enhance=false"
              {| method := "HEAD"; headers := []; body := None |} = inl e
            /\ message = errorMessageOf e)
      \/ (exists response e,
            "generate_image" = "generate_text"
            /\ answering 404 "Not Found" ""
                 "https://image.pollinations.ai/prompt/x?width=1024&height=1024&model=flux&nologo=true&enhance=false"
                 {| method := "HEAD"; headers := []; body := None |} = inr response
            /\ ok response = true
            /\ text response = inl e /\ message = errorMessageOf e) ).
Proof.
  refine (failure_messages (answering 404 "Not Found" "")
            {| name := "generate_image"; arguments := Some (promptOnly "x") |}
            [ ("https://image.pollinations.ai/prompt/x?width=1024&height=1024&model=flux&nologo=true&enhance=false",
               {| method := "HEAD"; headers := []; body := None |}) ]
            (Failure "Failed to generate image: Not Found")
            "https://image.pollinations.ai/prompt/x?width=1024&height=1024&model=flux&nologo=true&enhance=false"
            {| method := "HEAD"; headers := []; body := None |} _ _ _).
  - vm_compute. reflexivity.
  - left. reflexivity.
  - reflexivity.
Defined.

(** X11. The [success] member of the payload mirrors the error flag: the
    text of a flagged result starts with [success: false], the text of an
    image or text result without flag starts with [success: true]. The model
    list is the exception: its text starts with [image_models] and the key
    [success] occurs nowhere in it. *)
Theorem success_member_mirrors_flag :
  forall (remote : Remote) (request : CallToolRequest) (calls : list Call)
         (result : CallToolResult),
    invoke remote request = (calls, inr result) ->
    exists payload rest,
      content result = TextContent payload :: rest /\
      match isError result with
      | Some _ => prefix (successMember false) payload = true
      | None =>
          if String.eqb (name request) "get_available_models"
          then prefix modelsMember payload = true
               /\ occursIn successKey payload = false
          else prefix (successMember true) payload = true
      end.
Proof.
  intros remote request calls result Hrun.
  destruct (invoke_outcome remote request) as [calls' [result' [Hrun' Hpath]]].
  rewrite Hrun in Hrun'. injection Hrun' as <- <-.
  destruct Hpath as [H1 H2 H3 | Hname | Htool Hmissing
                    | p Hname Hp Hbad
                    | p e Hname Hp Hwell Hremote | p response Hname Hp Hwell Hremote Hok
                    | p response Hname Hp Hwell Hremote Hok
                    | p e Hname Hp Hremote | p response Hname Hp Hremote Hok
                    | p response e Hname Hp Hremote Hok Hraw
                    | p response raw Hname Hp Hremote Hok Hraw];
    eexists; eexists; (split; [reflexivity|]); cbn [isError Failure Success];
    try rewrite Hname; try reflexivity.
  split; vm_compute; reflexivity.
Qed.

Lemma success_member_witness :
  exists payload rest,
    content (Success [TextContent (JSON.stringify models 2)]) = TextContent payload :: rest
    /\ prefix modelsMember payload = true
    /\ occursIn successKey payload = false.
Proof.
  exact (success_member_mirrors_flag (answering 200 "OK" "")
           {| name := "get_available_models"; arguments := None |}
           [] (Success [TextContent (JSON.stringify models 2)]) eq_refl).
Defined.

(** ** Reading strings back from a payload *)

Lemma unquoteBody_quoteChar (c : ascii) (tail : string) :
  unquoteBody (JSON.quoteChar c ++ tail) = consChar c (unquoteBody tail).
Proof. destruct c as [[] [] [] [] [] [] [] []]; reflexivity. Qed.

Lemma isLoneSurrogate_bounds (c d e : ascii) :
  isLoneSurrogate c d e = true ->
  c = ascii_of_N 237
  /\ ((160 <=? N_of_ascii d) && (N_of_ascii d <=? 191))%N = true
  /\ ((128 <=? N_of_ascii e) && (N_of_ascii e <=? 191))%N = true.
Proof.
  unfold isLoneSurrogate. intros H.
  apply andb_true_iff in H as [H He2].
  apply andb_true_iff in H as [H He1].
  apply andb_true_iff in H as [H Hd2].
  apply andb_true_iff in H as [Hc Hd1].
  rewrite Hd1, Hd2, He1, He2. repeat split.
  apply N.eqb_eq in Hc. rewrite <- (ascii_N_embedding c), Hc. reflexivity.
Qed.

(** Reading undoes the escape of a lone surrogate. *)
Lemma unquoteBody_surrogateEscape (c d e : ascii) (tail : string) :
  isLoneSurrogate c d e = true ->
  unquoteBody (JSON.surrogateEscape d e ++ tail) =
  consChar c (consChar d (consChar e (unquoteBody tail))).
Proof.
  intros H. apply isLoneSurrogate_bounds in H as [-> [Hd He]].
  destruct d as [[] [] [] [] [] [] [] []]; try discriminate Hd; clear Hd;
    destruct e as [[] [] [] [] [] [] [] []]; try discriminate He; clear He;
    reflexivity.
Qed.

Lemma quoteChars_cons (c : ascii) (rest : string) :
  JSON.quoteChars (String c rest) =
  match rest with
  | String d (String e rest') =>
      if isLoneSurrogate c d e
      then JSON.surrogateEscape d e ++ JSON.quoteChars rest'
      else JSON.quoteChar c ++ JSON.quoteChars rest
  | _ => JSON.quoteChar c ++ JSON.quoteChars rest
  end.
Proof. reflexivity. Qed.

Lemma unquoteBody_quoteChars_upto (n : nat) :
  forall (s tail : string),
    String.length s <= n ->
    unquoteBody (JSON.quoteChars s ++ DQUOTE ++ tail) = Some (s, tail).
Proof.
  induction n as [|n IH]; intros s tail Hlen.
  - destruct s; [reflexivity | cbn in Hlen; lia].
  - destruct s as [|c rest]; [reflexivity|].
    cbn [String.length] in Hlen.
    assert (Hrest : unquoteBody (JSON.quoteChar c ++ JSON.quoteChars rest ++ DQUOTE ++ tail)
                    = Some (String c rest, tail)).
    { rewrite unquoteBody_quoteChar, IH by lia. reflexivity. }
    rewrite quoteChars_cons.
    destruct rest as [|d [|e rest']]; try (rewrite append_assoc; exact Hrest).
    destruct (isLoneSurrogate c d e) eqn:Hlone; rewrite append_assoc; [|exact Hrest].
    rewrite (unquoteBody_surrogateEscape c d e _ Hlone), IH.
    + reflexivity.
    + cbn [String.length] in Hlen. lia.
Qed.

(** Reading undoes QuoteJSONString, whatever follows the closing quote. *)
Lemma unquoteBody_quote (s tail : string) :
  unquoteBody (JSON.quoteChars s ++ DQUOTE ++ tail) = Some (s, tail).
Proof. exact (unquoteBody_quoteChars_upto (String.length s) s tail (le_n _)). Qed.

Lemma readMember_spec (flag : bool) (key value tail : string) :
  readMember flag key (memberAfterSuccess flag key ++ JSON.quote value ++ tail) = Some value.
Proof.
  unfold readMember. rewrite prefix_app, dropChars_app.
  unfold JSON.quote. rewrite !append_assoc.
  change (DQUOTE ++ JSON.quoteChars value ++ DQUOTE ++ tail)
    with (String (ascii_of_N 34) (JSON.quoteChars value ++ DQUOTE ++ tail)).
  cbv iota. rewrite Ascii.eqb_refl, unquoteBody_quote. reflexivity.
Qed.

Lemma Failure_payload (message : string) :
  JSON.stringify [("success", JBool false); ("error", JString message)] 2 =
  memberAfterSuccess false "error" ++ JSON.quote message ++ LF ++ "}".
Proof.
  unfold JSON.stringify. cbn.
  rewrite !append_assoc. reflexivity.
Qed.

Lemma text_payload (l : TextLocals.t) (p raw : string) :
  exists tail,
    JSON.stringify (spec_textPayload l p raw) 2 =
    memberAfterSuccess true "response" ++ JSON.quote raw ++ tail.
Proof.
  unfold JSON.stringify, spec_textPayload.
  destruct (TextLocals.seed l) as [seed|]; cbn; eexists;
    rewrite !append_assoc; reflexivity.
Qed.

(** X12. The message of a failure is in the envelope without loss: whatever
    characters it holds (a status text or a thrown message may hold quotes,
    backslashes, line breaks), reading the [error] member of the payload
    back as a JSON string gives the message again. *)
Theorem failure_message_reads_back :
  forall (remote : Remote) (request : CallToolRequest) (calls : list Call)
         (result : CallToolResult),
    invoke remote request = (calls, inr result) ->
    isError result = Some true ->
    exists message payload,
      result = Failure message
      /\ content result = [TextContent payload]
      /\ readMember false "error" payload = Some message.
Proof.
  intros remote request calls result Hrun Hflag.
  destruct (invoke_outcome remote request) as [calls' [result' [Hrun' Hpath]]].
  rewrite Hrun in Hrun'. injection Hrun' as <- <-.
  assert (Hread : forall message,
            exists payload,
              content (Failure message) = [TextContent payload]
              /\ readMember false "error" payload = Some message).
  { intros message. eexists. split; [reflexivity|].
    rewrite Failure_payload. apply readMember_spec. }
  destruct Hpath; cbn [isError Success] in Hflag; try discriminate Hflag;
    match goal with
    | |- exists message payload, Failure ?m = _ /\ _ =>
        destruct (Hread m) as [payload [Hcontent Hback]];
        exists m, payload; auto
    end.
Qed.

Lemma failure_message_reads_back_witness :
  exists message payload,
    Failure ("Failed to generate image: " ++ "Not " ++ DQUOTE ++ "Found" ++ DQUOTE)
      = Failure message
    /\ content (Failure ("Failed to generate image: "
                           ++ "Not " ++ DQUOTE ++ "Found" ++ DQUOTE))
       = [TextContent payload]
    /\ readMember false "error" payload = Some message.
Proof.
  refine (failure_message_reads_back
            (answering 404 ("Not " ++ DQUOTE ++ "Found" ++ DQUOTE) "")
            {| name := "generate_image"; arguments := Some (promptOnly "x") |}
            [spec_imageCall (imageLocals (Some (promptOnly "x"))) "x"]
            _ _ _); reflexivity.
Defined.

(** X13. The body the remote returned is in the result without loss: after
    a successful generate_text call, reading the [response] member of the
    payload back as a JSON string gives the raw body again, whatever
    characters it holds. *)
Theorem response_body_reads_back :
  forall (remote : Remote) (args : option Arguments) (p : string)
         (response : Response) (raw : string),
    promptIs args p ->
    remote (fst (spec_textCall (textLocals args) p))
           (snd (spec_textCall (textLocals args) p)) = inr response ->
    ok response = true ->
    text response = inr raw ->
    exists payload,
      snd (invoke remote {| name := "generate_text"; arguments := args |}) =
      inr (Success [TextContent payload])
      /\ readMember true "response" payload = Some raw.
Proof.
  intros remote args p response raw Hp Hremote Hok Hraw.
  rewrite (invoke_generate_text remote args p Hp). cbv zeta. cbn [snd].
  rewrite Hremote, Hok, Hraw.
  eexists. split; [reflexivity|].
  destruct (text_payload (textLocals args) p raw) as [tail ->].
  apply readMember_spec.
Qed.

Lemma response_body_reads_back_witness :
  exists payload,
    snd (invoke (answering 200 "OK" ("line 1" ++ LF ++ "say " ++ DQUOTE ++ "hi" ++ DQUOTE))
                {| name := "generate_text"; arguments := Some helloArguments |}) =
    inr (Success [TextContent payload])
    /\ readMember true "response" payload =
       Some ("line 1" ++ LF ++ "say " ++ DQUOTE ++ "hi" ++ DQUOTE).
Proof.
  apply (response_body_reads_back
           (answering 200 "OK" ("line 1" ++ LF ++ "say " ++ DQUOTE ++ "hi" ++ DQUOTE))
           (Some helloArguments) "hello"
           {| status := 200; statusText := "OK";
              text := inr ("line 1" ++ LF ++ "say " ++ DQUOTE ++ "hi" ++ DQUOTE) |}).
  - split; [reflexivity | discriminate].
  - reflexivity.
  - reflexivity.
  - reflexivity.
Defined.

(** ** What is sent, and what is read of the answer *)

(** X14. What an invocation sends is fixed before anything is answered: the
    requests made are the same against any two remotes. There is no retry
    and no follow-up request that would depend on the answer. *)
Theorem requests_do_not_depend_on_the_remote :
  forall (remote1 remote2 : Remote) (request : CallToolRequest),
    fst (invoke remote1 request) = fst (invoke remote2 request).
Proof.
  intros remote1 remote2 [tool args].
  destruct (String.eqb_spec tool "generate_image") as [-> | Himage].
  - destruct (prompt_cases args) as [Hmissing | [p Hp]].
    + now rewrite !invoke_missing_prompt by auto.
    + destruct (hasLoneSurrogate p) eqn:Hwell.
      * now rewrite !(invoke_image_malformed _ args p Hp Hwell).
      * now rewrite !(invoke_generate_image _ args p Hp Hwell).
  - destruct (String.eqb_spec tool "generate_text") as [-> | Htext].
    + destruct (prompt_cases args) as [Hmissing | [p Hp]].
      * now rewrite !invoke_missing_prompt by auto.
      * now rewrite !(invoke_generate_text _ args p Hp).
    + rewrite !invoke_dispatch. unfold dispatch. cbn [name arguments].
      apply String.eqb_neq in Himage, Htext. rewrite Himage, Htext.
      destruct (String.eqb tool "get_available_models"); reflexivity.
Qed.

Lemma countChar_app (c : ascii) (s t : string) :
  countChar c (s ++ t) = countChar c s + countChar c t.
Proof.
  induction s as [|x s IH]; simpl.
  - reflexivity.
  - rewrite IH. lia.
Qed.

Lemma countChar_concatMap (c : ascii) (f : ascii -> string) (s : string) :
  (forall x, countChar c (f x) = 0) -> countChar c (concatMap f s) = 0.
Proof.
  intros Hf. induction s as [|x s IH]; simpl.
  - reflexivity.
  - now rewrite countChar_app, Hf, IH.
Qed.

Lemma separators_escaped_in_path (p : string) :
  countChar "?" (percentEscape p) = 0
  /\ countChar "&" (percentEscape p) = 0
  /\ countChar "=" (percentEscape p) = 0
  /\ countChar "/" (percentEscape p) = 0
  /\ countChar "#" (percentEscape p) = 0.
Proof.
  unfold percentEscape.
  repeat split; apply countChar_concatMap;
    intros x; destruct x as [[] [] [] [] [] [] [] []]; reflexivity.
Qed.

Lemma separators_escaped_in_query (s : string) :
  countChar "?" (URLSearchParams.serialize s) = 0
  /\ countChar "&" (URLSearchParams.serialize s) = 0
  /\ countChar "=" (URLSearchParams.serialize s) = 0
  /\ countChar "/" (URLSearchParams.serialize s) = 0
  /\ countChar "#" (URLSearchParams.serialize s) = 0.
Proof.
  unfold URLSearchParams.serialize.
  repeat split; apply countChar_concatMap;
    intros x; destruct x as [[] [] [] [] [] [] [] []]; reflexivity.
Qed.

(** X15. No argument can smuggle a separator into the URL. Whatever the
    prompt, the model and the numbers hold, the URL of an image request has
    exactly one question mark, no hash, the three slashes of the endpoint and
    the one before the prompt, and one [=] per parameter with one [&]
    between two parameters: five parameters, six when a seed was supplied. *)
Theorem url_separators_are_fixed :
  forall (remote : Remote) (args : option Arguments) (p : string)
         (url : string) (init : RequestInit),
    promptIs args p ->
    In (url, init)
       (fst (invoke remote {| name := "generate_image"; arguments := args |})) ->
    let parameters := match arg_seed (orEmpty args) with Some _ => 6 | None => 5 end in
    countChar "?" url = 1
    /\ countChar "#" url = 0
    /\ countChar "/" url = 4
    /\ countChar "=" url = parameters
    /\ countChar "&" url = parameters - 1.
Proof.
  intros remote args p url init Hp Hsent.
  destruct (image_request_sent remote args url init Hsent) as [q [Hq [_ [= -> _]]]].
  rewrite (promptIs_unique args q p Hq Hp). clear q Hq Hsent.
  unfold spec_imageUrl, spec_query.
  change (ImageLocals.seed (imageLocals args)) with (arg_seed (orEmpty args)).
  destruct (separators_escaped_in_path p) as [Hq [Ha [He [Hs Hh]]]].
  destruct (separators_escaped_in_query
              (toUSVString (Number.toString (ImageLocals.width (imageLocals args)))))
    as [Wq [Wa [We [Ws Wh]]]].
  destruct (separators_escaped_in_query
              (toUSVString (Number.toString (ImageLocals.height (imageLocals args)))))
    as [Hq' [Ha' [He' [Hs' Hh']]]].
  destruct (separators_escaped_in_query
              (toUSVString (ImageLocals.model (imageLocals args))))
    as [Mq [Ma [Me [Ms Mh]]]].
  destruct (arg_seed (orEmpty args)) as [seed|];
    [ destruct (separators_escaped_in_query (toUSVString (Number.toString seed)))
        as [Sq [Sa [Se [Ss Sh]]]] | ];
    destruct (ImageLocals.nologo (imageLocals args)),
             (ImageLocals.enhance (imageLocals args));
    cbv zeta; rewrite !countChar_app;
    repeat match goal with H : countChar _ _ = 0 |- _ => rewrite H; clear H end;
    repeat split.
Qed.

Lemma url_separators_witness :
  countChar "&"
    "https://image.pollinations.ai/prompt/a%3Db%26c%3Fd%2Fe?width=1024&height=1024&model=flux&nologo=true&enhance=false"
  = 4.
Proof.
  assert (H : promptIs (Some (promptOnly "a=b&c?d/e")) "a=b&c?d/e")
    by (split; [reflexivity | discriminate]).
  destruct (url_separators_are_fixed (answering 200 "OK" "")
              (Some (promptOnly "a=b&c?d/e")) "a=b&c?d/e"
              "https://image.pollinations.ai/prompt/a%3Db%26c%3Fd%2Fe?width=1024&height=1024&model=flux&nologo=true&enhance=false"
              {| method := "HEAD"; headers := []; body := None |} H)
    as [_ [_ [_ [_ Hamp]]]].
  - vm_compute. left. reflexivity.
  - exact Hamp.
Defined.

(** X16. Of the answer to its HEAD request, generate_image reads the
    200-299 test and the status text and nothing else: two remotes whose
    answers agree on these give the same result. The body is never read and
    the status number does not matter beyond the test. *)
Theorem image_result_ignores_the_body :
  forall (remote1 remote2 : Remote) (args : option Arguments),
    (forall url init, sameHead (remote1 url init) (remote2 url init)) ->
    invoke remote1 {| name := "generate_image"; arguments := args |} =
    invoke remote2 {| name := "generate_image"; arguments := args |}.
Proof.
  intros remote1 remote2 args Hsame.
  destruct (prompt_cases args) as [Hmissing | [p Hp]].
  - now rewrite !invoke_missing_prompt by auto.
  - destruct (hasLoneSurrogate p) eqn:Hwell;
      [now rewrite !(invoke_image_malformed _ args p Hp Hwell)|].
    rewrite !(invoke_generate_image _ args p Hp Hwell). cbv zeta.
    specialize (Hsame (spec_imageUrl (imageLocals args) p)
                      {| method := "HEAD"; headers := []; body := None |}).
    destruct (remote1 _ _) as [e1 | r1], (remote2 _ _) as [e2 | r2];
      cbn [sameHead] in Hsame; try contradiction.
    + now subst e2.
    + destruct Hsame as [Hok Htext]. rewrite Hok, Htext. reflexivity.
Qed.

Lemma image_result_ignores_the_body_witness :
  invoke (answering 200 "OK" "")
         {| name := "generate_image"; arguments := Some (promptOnly "a cat") |} =
  invoke (answering 204 "OK" "some bytes")
         {| name := "generate_image"; arguments := Some (promptOnly "a cat") |}.
Proof.
  apply image_result_ignores_the_body.
  intros url init. split; reflexivity.
Defined.
